(** * kafkacheck: cost totals over Kafka export files

    A shallow embedding of [scripts/kafkacheck.py] and the properties of its
    report.  The script lists a directory, keeps the files whose name contains
    a pattern, reads each one as a (possibly double-encoded) JSON document,
    concatenates the rows found, checks the identifiers for duplicates and
    prints a grand total and a breakdown per cost unit.

    Conventions of the embedding.
    - A value produced by [json.load] is a [pyval].  A dict is the list of
      its items in insertion order; its keys are distinct, and a lookup
      takes the first binding of a key.
    - A Python [float] is a binary64 number, [PrimFloat.float]; [+] on floats
      is [PrimFloat.add], [<] is [PrimFloat.ltb], [==] is [PrimFloat.eqb].
      A Python [int] is a [Z]; its conversion to a float rounds to nearest,
      ties to even, and overflows with [OverflowError].
    - A Python [str] is a [string] of ASCII characters: [str.lower] is
      modelled on the ASCII letters, and the order of [str] is the order of
      the character codes.
    - [print] appends an [out] event that carries the interpolated values; the
      event of a currency line carries the number handed to
      [locale.format_string].
    - A statement that may raise runs in the monad [M]: the events printed so
      far, and either a value or the reason the run stopped ([Raise] for an
      exception, [SysExit] for [sys.exit]).
    - What the libraries and the file system decide is read from a [world]:
      [sys.argv], the listing of a directory (taken to succeed), the document
      [json.load] reads from each file or the exception it raises,
      [json.loads] and [float] on a string, and whether [locale.setlocale]
      succeeds. *)

From Stdlib Require Import ZArith List String Ascii Bool Arith Lia.
From Stdlib Require Import Floats Permutation Sorted.
Import ListNotations.

Set Warnings "-register-all,-inexact-float".

Local Open Scope string_scope.
Local Open Scope list_scope.
Local Open Scope Z_scope.

(* ================================================================== *)
(** ** Python values *)

Inductive pyval : Type :=
| PNone
| PBool (b : bool)
| PInt (z : Z)
| PFloat (f : float)
| PStr (s : string)
| PList (l : list pyval)
| PDict (d : list (string * pyval)).

(** The exceptions the script can meet.  [OtherError] stands for the
    remaining subclasses of [Exception] raised while a file is opened and
    decoded ([OSError], [UnicodeDecodeError], [RecursionError], ...). *)
Inductive exn : Type :=
| TypeError
| AttributeError
| ValueError
| OverflowError
| JSONDecodeError
| LocaleError
| OtherError.

Definition exn_eqb (a b : exn) : bool :=
  match a, b with
  | TypeError, TypeError | AttributeError, AttributeError
  | ValueError, ValueError | OverflowError, OverflowError
  | JSONDecodeError, JSONDecodeError | LocaleError, LocaleError
  | OtherError, OtherError => true
  | _, _ => false
  end.

(** [d.get(k)] on the items of a dict. *)
Fixpoint dict_get (d : list (string * pyval)) (k : string) : option pyval :=
  match d with
  | [] => None
  | (k', v) :: d' => if String.eqb k k' then Some v else dict_get d' k
  end.

(** [x.get(k, default)]: only a dict has the method. *)
Definition py_get (x : pyval) (k : string) (default : pyval) : exn + pyval :=
  match x with
  | PDict d => inr (match dict_get d k with Some v => v | None => default end)
  | _ => inl AttributeError
  end.

(** [s in t] for two strings: [s] is a substring of [t]. *)
Fixpoint str_in (p s : string) : bool :=
  String.prefix p s ||
  match s with
  | EmptyString => false
  | String _ s' => str_in p s'
  end.

(** [k in x] for a string [k]: a key of a dict, an element of a list equal to
    the string, a substring of a string; the other values are not
    containers. *)
Definition py_contains (k : string) (x : pyval) : exn + bool :=
  match x with
  | PDict d => inr (match dict_get d k with Some _ => true | None => false end)
  | PList l =>
      inr (existsb (fun v => match v with PStr s => String.eqb s k | _ => false end) l)
  | PStr s => inr (str_in k s)
  | _ => inl TypeError
  end.

(** [x[k]] for a string [k]; [KeyError] cannot arise where the script
    subscripts, since it has just tested [k in x]. *)
Definition py_getitem (x : pyval) (k : string) : exn + pyval :=
  match x with
  | PDict d => match dict_get d k with Some v => inr v | None => inl OtherError end
  | _ => inl TypeError
  end.

Definition isinstance_str (v : pyval) : bool :=
  match v with PStr _ => true | _ => false end.

(** Truth value of a value, as [if v] and [not v] test it. *)
Definition truthy (v : pyval) : bool :=
  match v with
  | PNone => false
  | PBool b => b
  | PInt z => negb (z =? 0)
  | PFloat f => negb (PrimFloat.eqb f 0%float)
  | PStr s => negb (String.eqb s "")
  | PList l => match l with [] => false | _ => true end
  | PDict d => match d with [] => false | _ => true end
  end.

(* ================================================================== *)
(** ** Printing, exceptions and exit *)

Inductive exit_msg : Type :=
| ExitUsage                                   (* sys.exit(__doc__) *)
| ExitNoDirectory (directory : string)        (* Error: Directory not found *)
| ExitNoFiles (file_pattern directory : string)
| ExitNoItems.                                (* No cost items found ... *)

Inductive out : Type :=
| WarnNoRowsInner (name : string)             (* line 34 *)
| ErrInnerJSON (name : string)                (* line 37 *)
| WarnNoValue (name : string)                 (* line 40 *)
| WarnNoRowsDirect (name : string)            (* line 44 *)
| ErrProcessing (name : string) (e : exn)     (* line 48 *)
| ErrMissingArgs                              (* line 53 *)
| Searching (file_pattern directory : string) (* line 64 *)
| FoundFiles (n : nat)                        (* line 73 *)
| FileItem (name : string)                    (* line 77 *)
| Processing (name : string)                  (* line 82 *)
| FoundItems (n : nat)                        (* line 85 *)
| TotalItems (n : nat)                        (* line 87 *)
| IdCheckHeader                               (* line 94 *)
| DupFound                                    (* line 96 *)
| DupTotalItems (n : nat)                     (* line 99 *)
| DupUniqueIds (n : nat)                      (* line 100 *)
| DupNumber (n : nat)                         (* line 101 *)
| DupMore (n : nat)                           (* line 105 *)
| DupId (id : pyval) (count : nat)            (* line 107 *)
| AllUnique                                   (* line 109 *)
| UniqueTotalItems (n : nat)                  (* line 110 *)
| WarnLocaleUS                                (* line 126 *)
| WarnLocaleDefault                           (* line 128 *)
| GrandTotalHeader                            (* line 131 *)
| TotalCost (grand_total_cost : float)        (* line 134 *)
| BreakdownHeader                             (* line 145 *)
| CostUnit (unit : pyval) (count : nat)       (* line 159 *)
| UnitTotalCost (total : float).              (* line 160 *)

Inductive stop : Type :=
| Raise (e : exn)
| SysExit (m : exit_msg).

Definition M (A : Type) : Type := list out * (stop + A).

Definition ret {A} (a : A) : M A := ([], inr a).

Definition bind {A B} (m : M A) (k : A -> M B) : M B :=
  match m with
  | (o, inl s) => (o, inl s)
  | (o, inr a) => let (o', r) := k a in (o ++ o', r)
  end.

Definition print (e : out) : M unit := ([e], inr tt).
Definition raise {A} (e : exn) : M A := ([], inl (Raise e)).
Definition sys_exit {A} (m : exit_msg) : M A := ([], inl (SysExit m)).

Definition lift {A} (r : exn + A) : M A :=
  match r with
  | inl e => raise e
  | inr a => ret a
  end.

Notation "x <- m ;; k" := (bind m (fun x => k))
  (at level 61, m at next level, right associativity).
Notation "m ;;; k" := (bind m (fun _ => k))
  (at level 61, right associativity).

(** [try: body except <catches>: handler].  [sys.exit] raises [SystemExit],
    which no [except Exception] clause catches. *)
Definition try_except {A} (body : M A) (catches : exn -> bool)
    (handler : exn -> M A) : M A :=
  match body with
  | (o, inl (Raise e)) =>
      if catches e then let (o', r) := handler e in (o ++ o', r)
      else (o, inl (Raise e))
  | other => other
  end.

(** What a run prints, and how it ends. *)
Definition output {A} (m : M A) : list out := fst m.
Definition outcome {A} (m : M A) : stop + A := snd m.

(** The exit status of the process: 0 on normal completion; 1 after
    [sys.exit] with a message and after an uncaught exception. *)
Definition exit_status (m : M unit) : Z :=
  match outcome m with
  | inr _ => 0
  | inl _ => 1
  end.

(* ================================================================== *)
(** ** The world of a run *)

(** An entry of a directory: [item.name], [item.is_file()], and what
    [open(file_path)] followed by [json.load(f)] returns or raises. *)
Record file : Type := {
  name : string;
  is_file : bool;
  content : exn + pyval
}.

(** [argv] is [sys.argv]; [iterdir d] is [None] when [d] is no directory
    and otherwise the entries of [d] in the order [Path.iterdir] yields
    them; [json_loads s] is [json.loads(s)]; [float_of_str s] is [float(s)],
    [None] when it raises [ValueError]; [setlocale l] tells whether
    [locale.setlocale(locale.LC_ALL, l)] succeeds. *)
Record world : Type := {
  argv : list string;
  iterdir : string -> option (list file);
  json_loads : string -> exn + pyval;
  float_of_str : string -> option float;
  setlocale : string -> bool
}.

(* ================================================================== *)
(** ** process_file *)

Section ProcessFile.
Variable w : world.

(** [json.loads(v)]: a value that is no string (nor bytes) is a
    [TypeError]. *)
Definition loads (v : pyval) : exn + pyval :=
  match v with
  | PStr s => json_loads w s
  | _ => inl TypeError
  end.

(** Lines 25-45, the body of the outer [try]. *)
Definition process_file_body (file_path : file) : M pyval :=
  kafka_message <- lift (content file_path) ;;
  has_value <-
    (present <- lift (py_contains "Value" kafka_message) ;;
     if (present : bool) then
       v <- lift (py_getitem kafka_message "Value") ;;
       ret (isinstance_str v)
     else ret false) ;;
  if (has_value : bool) then
    try_except
      (v <- lift (py_getitem kafka_message "Value") ;;
       inner_payload <- lift (loads v) ;;
       rows <- lift (py_get inner_payload "data" (PList [])) ;;
       (if truthy rows then ret tt
        else print (WarnNoRowsInner (name file_path))) ;;;
       ret rows)
      (exn_eqb JSONDecodeError)
      (fun _ => print (ErrInnerJSON (name file_path)) ;;; ret (PList []))
  else
    print (WarnNoValue (name file_path)) ;;;
    rows <- lift (py_get kafka_message "data" (PList [])) ;;
    (if truthy rows then ret tt
     else print (WarnNoRowsDirect (name file_path))) ;;;
    ret rows.

(** Lines 22-49. *)
Definition process_file (file_path : file) : M pyval :=
  try_except (process_file_body file_path) (fun _ => true)
    (fun e => print (ErrProcessing (name file_path) e) ;;; ret (PList [])).

End ProcessFile.

(* ================================================================== *)
(** ** Strings: [str.lower] and the order of [str] *)

Definition lower_ascii (c : ascii) : ascii :=
  let n := nat_of_ascii c in
  if ((65 <=? n) && (n <=? 90))%nat then ascii_of_nat (n + 32) else c.

Fixpoint lower (s : string) : string :=
  match s with
  | EmptyString => EmptyString
  | String c s' => String (lower_ascii c) (lower s')
  end.

(* ================================================================== *)
(** ** [sorted] and [list.sort] with a key

    Python's sort is stable and compares keys with [<] only.  It is modelled
    as the stable insertion sort; the two agree whenever [<] is a strict weak
    order on the keys met (for float keys: when none is a NaN). *)

Section Sorted.
Context {A K : Type}.
Variable lt : K -> K -> bool.
Variable key : A -> K.

Fixpoint insert (x : A) (l : list A) : list A :=
  match l with
  | [] => [x]
  | y :: l' => if lt (key y) (key x) then y :: insert x l' else x :: y :: l'
  end.

Definition sorted (l : list A) : list A := fold_right insert [] l.

End Sorted.

(* ================================================================== *)
(** ** Numbers: [float(x)] and [float + x] *)

(** The float nearest to an int (ties to even), as [float(z)] and the
    coercion of [float + int] compute it; an int too large for a float is
    an [OverflowError]. *)
Definition float_of_int (z : Z) : exn + float :=
  match SpecFloat.binary_normalize prec emax z 0 false with
  | S754_infinity _ => inl OverflowError
  | sf => inr (SF2Prim sf)
  end.

Definition float_of_bool (b : bool) : float := if b then 1%float else 0%float.

(** [acc + v] for a float [acc]. *)
Definition float_add (acc : float) (v : pyval) : exn + float :=
  match v with
  | PFloat f => inr (acc + f)%float
  | PInt z =>
      match float_of_int z with
      | inl e => inl e
      | inr f => inr (acc + f)%float
      end
  | PBool b => inr (acc + float_of_bool b)%float
  | _ => inl TypeError
  end.

(** [float(x)]. *)
Definition py_float (w : world) (x : pyval) : exn + float :=
  match x with
  | PFloat f => inr f
  | PInt z => float_of_int z
  | PBool b => inr (float_of_bool b)
  | PStr s =>
      match float_of_str w s with
      | Some f => inr f
      | None => inl ValueError
      end
  | _ => inl TypeError
  end.

(** Lines 147-151. *)
Definition sort_key (w : world) (unit_key : pyval) : exn + float :=
  match py_float w unit_key with
  | inl ValueError | inl TypeError => inr infinity
  | r => r
  end.

(* ================================================================== *)
(** ** Hashable values as keys of [set], [Counter] and [defaultdict]

    Two keys are the same key when they are equal by [==]: [None] with
    [None], a string with the same string, and numbers ([bool], [int],
    [float]) by their exact value, so that [1], [1.0] and [True] are one key.
    [hkey] is the normal form of a hashable value under [==]: a number with
    an integral value is its integer, any other float is itself.  Every NaN
    [json] produces is the one object [json.decoder.NaN], hence one key. *)

Inductive hkey : Type :=
| KNone
| KInt (z : Z)
| KFloat (f : spec_float)
| KStr (s : string).

Definition float_key (f : float) : hkey :=
  match Prim2SF f with
  | S754_zero _ => KInt 0
  | S754_finite s m e =>
      let z := if s then Z.neg m else Z.pos m in
      if 0 <=? e then KInt (z * 2 ^ e)
      else if Z.pos m mod 2 ^ (- e) =? 0 then KInt (z / 2 ^ (- e))
      else KFloat (S754_finite s m e)
  | sf => KFloat sf
  end.

(** [None] for the unhashable values: [hash] raises [TypeError]. *)
Definition key_of (v : pyval) : option hkey :=
  match v with
  | PNone => Some KNone
  | PBool b => Some (KInt (if b then 1 else 0))
  | PInt z => Some (KInt z)
  | PFloat f => Some (float_key f)
  | PStr s => Some (KStr s)
  | PList _ | PDict _ => None
  end.

Definition spec_float_eq_dec (a b : spec_float) : {a = b} + {a <> b}.
Proof.
  decide equality; try apply Bool.bool_dec; try apply Z.eq_dec;
    apply Pos.eq_dec.
Defined.

Definition hkey_eq_dec (a b : hkey) : {a = b} + {a <> b}.
Proof.
  decide equality; try apply Z.eq_dec; try apply spec_float_eq_dec;
    apply string_dec.
Defined.

Definition hkey_eqb (a b : hkey) : bool :=
  if hkey_eq_dec a b then true else false.

Definition same_key (a b : pyval) : bool :=
  match key_of a, key_of b with
  | Some x, Some y => hkey_eqb x y
  | _, _ => false
  end.

Definition hashable (v : pyval) : bool :=
  match key_of v with Some _ => true | None => false end.

(** A dict with hashable keys: its items in insertion order. *)
Fixpoint dict_lookup {V} (k : pyval) (d : list (pyval * V)) : option V :=
  match d with
  | [] => None
  | (k', v) :: d' => if same_key k k' then Some v else dict_lookup k d'
  end.

(** [d[k] = v]: a key already present keeps its place and its object. *)
Fixpoint dict_set {V} (k : pyval) (v : V) (d : list (pyval * V))
  : list (pyval * V) :=
  match d with
  | [] => [(k, v)]
  | (k', v') :: d' =>
      if same_key k k' then (k', v) :: d' else (k', v') :: dict_set k v d'
  end.

(** [d[k]] on a [defaultdict]. *)
Definition dict_default {V} (default : V) (k : pyval) (d : list (pyval * V)) : V :=
  match dict_lookup k d with
  | Some v => v
  | None => default
  end.

(** [set(l)]: the distinct elements, each by its first occurrence. *)
Fixpoint set_add (k : pyval) (s : list pyval) : list pyval :=
  match s with
  | [] => [k]
  | k' :: s' => if same_key k k' then k' :: s' else k' :: set_add k s'
  end.

Definition py_set (l : list pyval) : exn + list pyval :=
  if forallb hashable l
  then inr (fold_left (fun s k => set_add k s) l [])
  else inl TypeError.

(** [Counter(l)]. *)
Definition Counter (l : list pyval) : list (pyval * nat) :=
  fold_left (fun c elem => dict_set elem (dict_default 0%nat elem c + 1)%nat c) l [].

(* ================================================================== *)
(** ** main *)

Notation "x <~ m ;; k" :=
  (match m with inl e => inl e | inr x => k end)
  (at level 61, m at next level, right associativity).

(** Lines 63-68: the matching files, in the order of the listing. *)
Definition discover (file_pattern : string) (items : list file) : list file :=
  filter (fun item => is_file item && str_in (lower file_pattern) (lower (name item)))
    items.

(** Lines 80-85. *)
Definition py_iter (v : pyval) : exn + list pyval :=
  match v with
  | PList l => inr l
  | PStr s => inr (map (fun c => PStr (String c EmptyString)) (list_ascii_of_string s))
  | PDict d => inr (map (fun kv => PStr (fst kv)) d)
  | _ => inl TypeError
  end.

Fixpoint collect_rows (w : world) (all_rows : list pyval) (all_files : list file)
  : M (list pyval) :=
  match all_files with
  | [] => ret all_rows
  | file_path :: rest =>
      print (Processing (name file_path)) ;;;
      rows <- process_file w file_path ;;
      extended <- lift (py_iter rows) ;;
      print (FoundItems (List.length extended)) ;;;
      collect_rows w (all_rows ++ extended) rest
  end.

(** Line 93. *)
Fixpoint collect_ids (all_rows : list pyval) : exn + list pyval :=
  match all_rows with
  | [] => inr []
  | row :: rest =>
      c <~ py_get row "id" PNone ;;
      if truthy c then
        id <~ py_get row "id" PNone ;;
        ids <~ collect_ids rest ;;
        inr (id :: ids)
      else collect_ids rest
  end.

(** Line 98. *)
Definition duplicates_of (id_counts : list (pyval * nat)) : list (pyval * nat) :=
  filter (fun ic => (1 <? snd ic)%nat) id_counts.

(** Lines 103-107; [n] is [len(duplicates)]. *)
Fixpoint print_duplicates (i n : nat) (items : list (pyval * nat)) : M unit :=
  match items with
  | [] => ret tt
  | (id, count) :: rest =>
      if (5 <=? i)%nat then print (DupMore (n - 5))
      else print (DupId id count) ;;; print_duplicates (S i) n rest
  end.

(** Lines 93-110. *)
Definition id_check (all_rows : list pyval) : M unit :=
  all_ids <- lift (collect_ids all_rows) ;;
  print IdCheckHeader ;;;
  ids_set <- lift (py_set all_ids) ;;
  if negb (List.length all_ids =? List.length ids_set)%nat then
    print DupFound ;;;
    let id_counts := Counter all_ids in
    let duplicates := duplicates_of id_counts in
    print (DupTotalItems (List.length all_rows)) ;;;
    print (DupUniqueIds (List.length ids_set)) ;;;
    print (DupNumber (List.length duplicates)) ;;;
    print_duplicates 0 (List.length duplicates) duplicates
  else
    print AllUnique ;;;
    print (UniqueTotalItems (List.length all_rows)).

(** Lines 114-116. *)
Fixpoint grand_total (grand_total_cost : float) (all_rows : list pyval)
  : exn + float :=
  match all_rows with
  | [] => inr grand_total_cost
  | row :: rest =>
      cost <~ py_get row "cost" (PFloat 0) ;;
      t <~ float_add grand_total_cost cost ;;
      grand_total t rest
  end.

(** Lines 119-129. *)
Definition set_locale (w : world) : M unit :=
  if setlocale w "de_DE.UTF-8" then ret tt
  else if setlocale w "en_US.UTF-8" then print WarnLocaleUS
  else
    print WarnLocaleDefault ;;;
    if setlocale w "" then ret tt else raise LocaleError.

(** Lines 137-143: the two dicts after the loop over the rows. *)
Fixpoint breakdown (per_cost_unit : list (pyval * float))
    (item_count_per_cost_unit : list (pyval * nat)) (all_rows : list pyval)
  : exn + (list (pyval * float) * list (pyval * nat)) :=
  match all_rows with
  | [] => inr (per_cost_unit, item_count_per_cost_unit)
  | row :: rest =>
      unit <~ py_get row "cost_unit" (PStr "UNKNOWN") ;;
      cost <~ py_get row "cost" (PFloat 0) ;;
      if hashable unit then
        t <~ float_add (dict_default 0%float unit per_cost_unit) cost ;;
        breakdown (dict_set unit t per_cost_unit)
          (dict_set unit (dict_default 0%nat unit item_count_per_cost_unit + 1)%nat
             item_count_per_cost_unit)
          rest
      else inl TypeError
  end.

(** Line 153: the keys decorated with their sort key, then sorted. *)
Fixpoint sort_keys (w : world) (units : list pyval) : exn + list (float * pyval) :=
  match units with
  | [] => inr []
  | unit :: rest =>
      k <~ sort_key w unit ;;
      ks <~ sort_keys w rest ;;
      inr ((k, unit) :: ks)
  end.

Definition sorted_units (w : world) (units : list pyval) : exn + list pyval :=
  ks <~ sort_keys w units ;;
  inr (map snd (sorted PrimFloat.ltb fst ks)).

(** Lines 155-160. *)
Fixpoint print_units (per_cost_unit : list (pyval * float))
    (item_count_per_cost_unit : list (pyval * nat)) (units : list pyval) : M unit :=
  match units with
  | [] => ret tt
  | unit :: rest =>
      print (CostUnit unit (dict_default 0%nat unit item_count_per_cost_unit)) ;;;
      print (UnitTotalCost (dict_default 0%float unit per_cost_unit)) ;;;
      print_units per_cost_unit item_count_per_cost_unit rest
  end.

Fixpoint print_files (all_files : list file) : M unit :=
  match all_files with
  | [] => ret tt
  | file_path :: rest => print (FileItem (name file_path)) ;;; print_files rest
  end.

(** Lines 92-160: the report over the rows of all files. *)
Definition report (w : world) (all_rows : list pyval) : M unit :=
  id_check all_rows ;;;
  grand_total_cost <- lift (grand_total 0%float all_rows) ;;
  set_locale w ;;;
  print GrandTotalHeader ;;;
  print (TotalCost grand_total_cost) ;;;
  dicts <- lift (breakdown [] [] all_rows) ;;
  print BreakdownHeader ;;;
  units <- lift (sorted_units w (map fst (fst dicts))) ;;
  print_units (fst dicts) (snd dicts) units.

(** Lines 51-160. *)
Definition main (w : world) : M unit :=
  match argv w with
  | _ :: directory :: file_pattern :: _ =>
      match iterdir w directory with
      | None => sys_exit (ExitNoDirectory directory)
      | Some items =>
          print (Searching file_pattern directory) ;;;
          let all_files := discover file_pattern items in
          match all_files with
          | [] => sys_exit (ExitNoFiles file_pattern directory)
          | _ =>
              print (FoundFiles (List.length all_files)) ;;;
              let all_files := sorted String.ltb name all_files in
              print_files all_files ;;;
              all_rows <- collect_rows w [] all_files ;;
              print (TotalItems (List.length all_rows)) ;;;
              match all_rows with
              | [] => sys_exit ExitNoItems
              | _ => report w all_rows
              end
          end
      end
  | _ => print ErrMissingArgs ;;; sys_exit ExitUsage
  end.

(* ================================================================== *)
(** * The specification side

    The notions the properties are stated with: the rows the specification
    expects of a file, how a run ends, well-typed rows, distinct values and
    groups, and the worlds of the examples. *)

(* ================================================================== *)
(** ** Rows of a file and of a run *)

(** The [data] field of a payload, or the empty list when the payload has
    no such field. *)
Definition data_or_empty (payload : pyval) : pyval :=
  match payload with
  | PDict d => match dict_get d "data" with Some rows => rows | None => PList [] end
  | _ => PList []
  end.

(** The rows of a file in the words of the specification (4.2): the inner
    payload's [data] when [Value] is a string that parses, empty when it
    does not parse, the outer object's [data] when [Value] is absent or no
    string; empty when the file cannot be read as a JSON object. *)
Definition rows_of (w : world) (file_path : file) : pyval :=
  match content file_path with
  | inr (PDict d) =>
      match dict_get d "Value" with
      | Some (PStr s) =>
          match json_loads w s with
          | inr inner_payload => data_or_empty inner_payload
          | inl _ => PList []
          end
      | _ => data_or_empty (PDict d)
      end
  | _ => PList []
  end.

(** The rows of all files: the rows of each file, in the order the files
    are processed.  A [data] value that cannot be iterated is a
    [TypeError] of [all_rows.extend]. *)
Fixpoint extracted_rows (w : world) (all_files : list file) : exn + list pyval :=
  match all_files with
  | [] => inr []
  | file_path :: rest =>
      rows <~ py_iter (rows_of w file_path) ;;
      more <~ extracted_rows w rest ;;
      inr (rows ++ more)
  end.

(** The files of a run, in the order they are processed. *)
Definition all_files_of (file_pattern : string) (items : list file) : list file :=
  sorted String.ltb name (discover file_pattern items).

(* ================================================================== *)
(** ** How a run ends *)

Definition locale_available (w : world) : bool :=
  setlocale w "de_DE.UTF-8" || setlocale w "en_US.UTF-8" || setlocale w "".

(** The exceptions of the report, in the order its statements can raise. *)
Definition report_check (w : world) (all_rows : list pyval) : exn + unit :=
  all_ids <~ collect_ids all_rows ;;
  _ <~ py_set all_ids ;;
  _ <~ grand_total 0%float all_rows ;;
  if locale_available w then
    dicts <~ breakdown [] [] all_rows ;;
    _ <~ sorted_units w (map fst (fst dicts)) ;;
    inr tt
  else inl LocaleError.

(** How the run of [main] ends, stage by stage. *)
Definition run_outcome (w : world) : stop + unit :=
  match argv w with
  | _ :: directory :: file_pattern :: _ =>
      match iterdir w directory with
      | None => inl (SysExit (ExitNoDirectory directory))
      | Some items =>
          match discover file_pattern items with
          | [] => inl (SysExit (ExitNoFiles file_pattern directory))
          | _ =>
              match extracted_rows w (all_files_of file_pattern items) with
              | inl e => inl (Raise e)
              | inr [] => inl (SysExit ExitNoItems)
              | inr all_rows =>
                  match report_check w all_rows with
                  | inl e => inl (Raise e)
                  | inr _ => inr tt
                  end
              end
          end
      end
  | _ => inl (SysExit ExitUsage)
  end.

(** The fatal condition of a run, if any: missing arguments, a path that is
    no directory, no matching file, no row extracted. *)
Definition fatal_condition (w : world) : option exit_msg :=
  match argv w with
  | _ :: directory :: file_pattern :: _ =>
      match iterdir w directory with
      | None => Some (ExitNoDirectory directory)
      | Some items =>
          match discover file_pattern items with
          | [] => Some (ExitNoFiles file_pattern directory)
          | _ =>
              match extracted_rows w (all_files_of file_pattern items) with
              | inr [] => Some ExitNoItems
              | _ => None
              end
          end
      end
  | _ => Some ExitUsage
  end.



(* ================================================================== *)
(** ** Rows

    A well-typed row is a row as the data model describes it: a JSON object
    whose [id] can be hashed, whose [cost] is a number a float can hold and
    whose [cost_unit] can be hashed and, when it is an int, converted by
    [float]. *)

Definition is_dict (row : pyval) : bool :=
  match row with PDict _ => true | _ => false end.

Definition is_number (v : pyval) : bool :=
  match v with
  | PFloat _ | PBool _ => true
  | PInt z => match float_of_int z with inr _ => true | inl _ => false end
  | _ => false
  end.



(** The identifier of a row, when the row has one. *)
Definition id_of (row : pyval) : option pyval :=
  match row with
  | PDict d => dict_get d "id"
  | _ => None
  end.

(** The identifiers that are present and truthy, in the order of the
    rows. *)
Definition present_ids (all_rows : list pyval) : list pyval :=
  flat_map (fun row =>
              match id_of row with
              | Some id => if truthy id then [id] else []
              | None => []
              end) all_rows.

(** The cost unit of a row: its [cost_unit], or ["UNKNOWN"] when the row
    has none. *)
Definition unit_of (row : pyval) : pyval :=
  match row with
  | PDict d => match dict_get d "cost_unit" with Some u => u | None => PStr "UNKNOWN" end
  | _ => PStr "UNKNOWN"
  end.

(** The number [v] stands for in a sum of floats. *)
Definition to_float (v : pyval) : float :=
  match v with
  | PFloat f => f
  | PInt z => match float_of_int z with inr f => f | inl _ => 0%float end
  | PBool b => float_of_bool b
  | _ => 0%float
  end.

(** The cost of a row: its [cost], or 0.0 when the row has none. *)
Definition cost_of (row : pyval) : float :=
  match row with
  | PDict d => match dict_get d "cost" with Some c => to_float c | None => 0%float end
  | _ => 0%float
  end.

(** The sum of a list of floats, accumulated from 0.0 from left to
    right. *)
Definition float_sum (l : list float) : float := fold_left PrimFloat.add l 0%float.

(** The rows of a cost unit. *)
Definition rows_of_unit (u : pyval) (all_rows : list pyval) : list pyval :=
  filter (fun row => same_key u (unit_of row)) all_rows.

(* ================================================================== *)
(** ** Distinct values, groups and order *)

(** The distinct elements of a list in the order of their first occurrence,
    besides those already [seen]. *)
Fixpoint first_seen (seen l : list pyval) : list pyval :=
  match l with
  | [] => []
  | x :: l' =>
      if existsb (same_key x) seen then first_seen seen l'
      else x :: first_seen (seen ++ [x]) l'
  end.

(** How often a key occurs in a list. *)
Definition count (k : pyval) (l : list pyval) : nat :=
  List.length (filter (same_key k) l).

Definition okey_eq_dec (a b : option hkey) : {a = b} + {a <> b}.
Proof. decide equality. apply hkey_eq_dec. Defined.

(** The number of distinct values of a list, values being compared as keys
    are. *)
Definition distinct_count (l : list pyval) : nat :=
  List.length (nodup okey_eq_dec (map key_of l)).

(** The identifiers that occur more than once, each once, in the order of
    their first occurrence, with the number of their occurrences. *)
Definition duplicate_groups (all_ids : list pyval) : list (pyval * nat) :=
  filter (fun g => (1 <? snd g)%nat)
    (map (fun k => (k, count k all_ids)) (first_seen [] all_ids)).

(** Grouping: the dict a loop builds by [d[keyf(x)] = step(d[keyf(x)], x)],
    where a missing key reads as [v0]. *)
Definition group_step {X V} (keyf : X -> pyval) (step : V -> X -> V) (v0 : V)
    (d : list (pyval * V)) (x : X) : list (pyval * V) :=
  dict_set (keyf x) (step (dict_default v0 (keyf x) d) x) d.

Definition group {X V} (keyf : X -> pyval) (step : V -> X -> V) (v0 : V)
    (d : list (pyval * V)) (xs : list X) : list (pyval * V) :=
  fold_left (group_step keyf step v0) xs d.

(** [x] is not after [y]: the key of [y] is not below the key of [x]. *)
Definition key_le {A K} (lt : K -> K -> bool) (key : A -> K) (x y : A) : Prop :=
  lt (key y) (key x) = false.

(** The elements whose key is neither below nor above [k]. *)
Definition same_rank {A K} (lt : K -> K -> bool) (key : A -> K) (k : K) (x : A) : bool :=
  negb (lt k (key x)) && negb (lt (key x) k).

(* ================================================================== *)
(** ** Worlds and rows of the examples *)

Definition quote : string := String "034" EmptyString.

(** A row with the three fields the script reads. *)
Definition row (id : pyval) (cost : pyval) (cost_unit : pyval) : pyval :=
  PDict [("id", id); ("cost", cost); ("cost_unit", cost_unit)].

Definition regular (n : string) (c : exn + pyval) : file :=
  {| name := n; is_file := true; content := c |}.

(** The text [{"data": [{"id": "a", "cost": 2}]}], the only JSON text of
    the examples, and what [json.loads] returns on the texts they use. *)
Definition inner_text : string :=
  "{" ++ quote ++ "data" ++ quote ++ ": [{" ++ quote ++ "id" ++ quote ++ ": "
      ++ quote ++ "a" ++ quote ++ ", " ++ quote ++ "cost" ++ quote ++ ": 2}]}".

Definition example_loads (s : string) : exn + pyval :=
  if String.eqb s inner_text
  then inr (PDict [("data", PList [PDict [("id", PStr "a"); ("cost", PInt 2)]])])
  else inl JSONDecodeError.

(** [float] on the labels of the examples: ["10"], ["2"] and ["inf"] are
    numbers, the other labels used are not. *)
Definition example_float (s : string) : option float :=
  if String.eqb s "10" then Some 10%float
  else if String.eqb s "2" then Some 2%float
  else if String.eqb s "inf" then Some infinity
  else None.

Definition example_world (args : list string) (items : list file) : world :=
  {| argv := args;
     iterdir := fun d => if String.eqb d "exports" then Some items else None;
     json_loads := example_loads;
     float_of_str := example_float;
     setlocale := fun l => String.eqb l "en_US.UTF-8" |}.

(** An export in the envelope of the message queue, and one whose [Value]
    is no JSON. *)
Definition enveloped : file :=
  regular "topic-message" (inr (PDict [("Key", PNone); ("Value", PStr inner_text)])).

Definition broken : file :=
  regular "topic-message(1)" (inr (PDict [("Value", PStr "not json")])).

(** The run over the two exports. *)
Definition two_exports : world :=
  example_world ["kafkacheck.py"; "exports"; "topic"] [enveloped; broken].




(** Rows that carry the identifiers ["a"], ["a"], ["b"]. *)
Definition rows_aab : list pyval :=
  [row (PStr "a") (PInt 1) (PStr "10");
   row (PStr "a") (PInt 2) (PStr "10");
   row (PStr "b") (PInt 3) (PStr "2")].

(** Thirteen rows: the identifiers 1 to 6 twice, then 7 once. *)
Definition rows_six_twice : list pyval :=
  map (fun z => PDict [("id", PInt z)]) [1; 2; 3; 4; 5; 6; 1; 2; 3; 4; 5; 6; 7].



(** Two rows whose fields are all present and falsy. *)
Definition rows_falsy : list pyval :=
  [row (PStr "") (PInt 0) (PStr ""); row (PStr "") (PInt 0) (PStr "")].

(* ================================================================== *)
(** ** What the further properties are stated with *)

(** The diagnostics of a file: what [process_file] prints for it. *)
Definition diagnostics (w : world) (file_path : file) : list out :=
  match content file_path with
  | inl e => [ErrProcessing (name file_path) e]
  | inr (PDict d) =>
      match dict_get d "Value" with
      | Some (PStr s) =>
          match json_loads w s with
          | inl JSONDecodeError => [ErrInnerJSON (name file_path)]
          | inl e => [ErrProcessing (name file_path) e]
          | inr (PDict inner) =>
              if truthy (data_or_empty (PDict inner)) then []
              else [WarnNoRowsInner (name file_path)]
          | inr _ => [ErrProcessing (name file_path) AttributeError]
          end
      | _ =>
          WarnNoValue (name file_path)
            :: (if truthy (data_or_empty (PDict d)) then []
                else [WarnNoRowsDirect (name file_path)])
      end
  | inr (PList l) =>
      if existsb (fun v => match v with PStr s => String.eqb s "Value" | _ => false end) l
      then [ErrProcessing (name file_path) TypeError]
      else [WarnNoValue (name file_path); ErrProcessing (name file_path) AttributeError]
  | inr (PStr s) =>
      if str_in "Value" s
      then [ErrProcessing (name file_path) TypeError]
      else [WarnNoValue (name file_path); ErrProcessing (name file_path) AttributeError]
  | inr _ => [ErrProcessing (name file_path) TypeError]
  end.

(** The values [all_rows.extend] can iterate. *)
Definition iterable (v : pyval) : bool :=
  match v with
  | PList _ | PStr _ | PDict _ => true
  | _ => false
  end.

(** The cost of a row can be added to a float: the row is an object whose
    [cost], when present, is a number a float can hold. *)
Definition cost_ok (row : pyval) : bool :=
  match row with
  | PDict d => match dict_get d "cost" with Some c => is_number c | None => true end
  | _ => false
  end.

(** The cost unit of a row can be the key of a dict. *)
Definition unit_ok (row : pyval) : bool := hashable (unit_of row).

(** The keys of [per_cost_unit] after the loop of lines 139-143: the
    distinct cost units in the order they are first seen. *)
Definition cost_units (all_rows : list pyval) : list pyval :=
  first_seen [] (map unit_of all_rows).

(** An int no float can hold. *)
Definition too_large (v : pyval) : bool :=
  match v with
  | PInt z => match float_of_int z with inl _ => true | inr _ => false end
  | _ => false
  end.

(** The names of the "Processing" lines, the numbers of the "Found n cost
    items" lines and of the "Total cost items" lines of an output. *)
Definition processing_names (o : list out) : list string :=
  flat_map (fun e => match e with Processing n => [n] | _ => [] end) o.

Definition found_items (o : list out) : list nat :=
  flat_map (fun e => match e with FoundItems n => [n] | _ => [] end) o.

Definition total_items (o : list out) : list nat :=
  flat_map (fun e => match e with TotalItems n => [n] | _ => [] end) o.

(** The events of the file phase of [main] (lines 52-87), as opposed to
    those of the report. *)
Definition file_phase_event (e : out) : bool :=
  match e with
  | WarnNoRowsInner _ | ErrInnerJSON _ | WarnNoValue _ | WarnNoRowsDirect _
  | ErrProcessing _ _ | ErrMissingArgs | Searching _ _ | FoundFiles _
  | FileItem _ | Processing _ | FoundItems _ | TotalItems _ => true
  | _ => false
  end.

(** What the loop of lines 81-85 prints for one file. *)
Definition file_lines (w : world) (file_path : file) : list out :=
  Processing (name file_path) :: diagnostics w file_path
    ++ match py_iter (rows_of w file_path) with
       | inr rows => [FoundItems (List.length rows)]
       | inl _ => []
       end.

(** The two lines of a cost unit in the breakdown. *)
Definition unit_lines (all_rows : list pyval) (unit : pyval) : list out :=
  [CostUnit unit (List.length (rows_of_unit unit all_rows));
   UnitTotalCost (float_sum (map cost_of (rows_of_unit unit all_rows)))].

(** Lines 137-160: the breakdown by cost unit. *)
Definition breakdown_report (w : world) (all_rows : list pyval) : M unit :=
  dicts <- lift (breakdown [] [] all_rows) ;;
  print BreakdownHeader ;;;
  units <- lift (sorted_units w (map fst (fst dicts))) ;;
  print_units (fst dicts) (snd dicts) units.

(** Lines 113-160: what the report does after the identifier check. *)
Definition report_tail (w : world) (all_rows : list pyval) : M unit :=
  grand_total_cost <- lift (grand_total 0%float all_rows) ;;
  set_locale w ;;;
  print GrandTotalHeader ;;;
  print (TotalCost grand_total_cost) ;;;
  breakdown_report w all_rows.

(** What [set_locale] prints. *)
Definition locale_warnings (w : world) : list out :=
  if setlocale w "de_DE.UTF-8" then []
  else if setlocale w "en_US.UTF-8" then [WarnLocaleUS]
  else [WarnLocaleDefault].

(** A file that holds [{"data": null}]. *)
Definition null_data : file :=
  regular "topic-message(2)" (inr (PDict [("data", PNone)])).

(* ================================================================== *)
(** * Lemmas *)

(* ================================================================== *)
(** ** Lists *)

Lemma filter_nil_iff {A} (p : A -> bool) (l : list A) :
  filter p l = [] <-> forall x, In x l -> p x = false.
Proof.
  induction l as [ | y l IH]; simpl; [tauto |].
  destruct (p y) eqn:E; split.
  - discriminate.
  - intros H. specialize (H y (or_introl eq_refl)). congruence.
  - intros H x [<- | Hx]; [exact E | now apply IH].
  - intros H. apply IH. auto.
Qed.

Lemma filter_perm {A} (p : A -> bool) (l l' : list A) :
  Permutation l l' -> Permutation (filter p l) (filter p l').
Proof.
  induction 1 as [ | x l l' _ IH | x y l | l l' l'' _ IH _ IH']; simpl.
  - constructor.
  - destruct (p x); [now constructor | exact IH].
  - destruct (p x), (p y); try reflexivity. apply perm_swap.
  - now transitivity (filter p l').
Qed.



Lemma filter_map_snd {A} (p : nat -> bool) (l : list (A * nat)) :
  filter p (map snd l) = map snd (filter (fun g => p (snd g)) l).
Proof.
  induction l as [ | [a n] l IH]; simpl; [reflexivity |].
  destruct (p n); simpl; now rewrite IH.
Qed.

Lemma StronglySorted_filter {A} (R : A -> A -> Prop) (p : A -> bool) (l : list A) :
  StronglySorted R l -> StronglySorted R (filter p l).
Proof.
  induction 1 as [ | x l Hs IH Hx]; simpl; [constructor |].
  destruct (p x); [ | exact IH]. constructor; [exact IH |].
  rewrite Forall_forall in *. intros y Hy. apply filter_In in Hy as [Hy _]. auto.
Qed.

Lemma fold_succ {X} (xs : list X) (n : nat) :
  fold_left (fun v _ => (v + 1)%nat) xs n = (n + List.length xs)%nat.
Proof.
  revert n. induction xs as [ | x xs IH]; intros n; simpl; [lia |].
  rewrite IH. lia.
Qed.

Lemma fold_left_add_map {X} (f : X -> float) (xs : list X) (acc : float) :
  fold_left (fun t x => (t + f x)%float) xs acc = fold_left PrimFloat.add (map f xs) acc.
Proof.
  revert acc. induction xs as [ | x xs IH]; intros acc; simpl; [reflexivity | apply IH].
Qed.

Lemma sum_of_positive (l : list nat) :
  Forall (fun n => (1 <= n)%nat) l ->
  (list_sum l = List.length l <-> filter (fun n => (1 <? n)%nat) l = []) /\
  (List.length l <= list_sum l)%nat.
Proof.
  induction 1 as [ | n l Hn _ [IH1 IH2]]; simpl; [split; [tauto | lia] |].
  split; [ | lia]. destruct (1 <? n)%nat eqn:E.
  - apply Nat.ltb_lt in E. split; [lia | discriminate].
  - apply Nat.ltb_ge in E. rewrite <- IH1. lia.
Qed.

(* ================================================================== *)
(** ** The monad *)

Lemma output_bind {A B} (m : M A) (k : A -> M B) :
  output (bind m k) =
  output m ++ match outcome m with inr a => output (k a) | inl _ => [] end.
Proof.
  destruct m as [o [s | a]]; simpl.
  - now rewrite app_nil_r.
  - now destruct (k a).
Qed.

Lemma outcome_bind {A B} (m : M A) (k : A -> M B) :
  outcome (bind m k) =
  match outcome m with inr a => outcome (k a) | inl s => inl s end.
Proof.
  destruct m as [o [s | a]]; simpl; [reflexivity | now destruct (k a)].
Qed.

Lemma outcome_lift {A} (r : exn + A) :
  outcome (lift r) = match r with inl e => inl (Raise e) | inr a => inr a end.
Proof. now destruct r. Qed.

Lemma output_lift {A} (r : exn + A) : output (lift r) = [].
Proof. now destruct r. Qed.




(* ================================================================== *)
(** ** Sorting *)

Section SortedPerm.
Context {A K : Type}.
Variable lt : K -> K -> bool.
Variable key : A -> K.

Lemma insert_perm (x : A) (l : list A) : Permutation (insert lt key x l) (x :: l).
Proof.
  induction l as [ | y l IH]; simpl; [reflexivity |].
  destruct (lt (key y) (key x)); [ | reflexivity].
  rewrite IH. apply perm_swap.
Qed.

Lemma sorted_perm (l : list A) : Permutation (sorted lt key l) l.
Proof.
  induction l as [ | x l IH]; simpl; [reflexivity |].
  rewrite insert_perm. now constructor.
Qed.

Lemma sorted_length (l : list A) : List.length (sorted lt key l) = List.length l.
Proof. apply Permutation_length, sorted_perm. Qed.

End SortedPerm.

(** The keys that satisfy [ok] are ordered by a strict weak order: [<] is
    irreflexive and transitive, and so is "not above". *)
Section WeakOrder.
Context {A K : Type}.
Variable lt : K -> K -> bool.
Variable key : A -> K.
Variable ok : K -> Prop.

Hypothesis lt_irrefl : forall a, ok a -> lt a a = false.
Hypothesis lt_trans :
  forall a b c, ok a -> ok b -> ok c -> lt a b = true -> lt b c = true -> lt a c = true.
Hypothesis le_trans :
  forall a b c, ok a -> ok b -> ok c -> lt b a = false -> lt c b = false -> lt c a = false.

Lemma lt_asym (a b : K) : ok a -> ok b -> lt a b = true -> lt b a = false.
Proof.
  intros Ha Hb H. destruct (lt b a) eqn:E; [ | reflexivity].
  pose proof (lt_trans _ _ _ Ha Hb Ha H E) as F. now rewrite lt_irrefl in F.
Qed.

Lemma insert_ascending (x : A) (l : list A) :
  ok (key x) -> Forall (fun y => ok (key y)) l ->
  StronglySorted (key_le lt key) l -> StronglySorted (key_le lt key) (insert lt key x l).
Proof.
  intros Hx Hl Hs. induction Hs as [ | y l Hs IH Hy]; simpl.
  - constructor; constructor.
  - inversion Hl as [ | ? ? Hyo Hlo]; subst.
    destruct (lt (key y) (key x)) eqn:E.
    + constructor; [now apply IH |].
      rewrite Forall_forall in *. intros z Hz.
      apply (Permutation_in _ (insert_perm lt key x l)) in Hz. destruct Hz as [<- | Hz].
      * unfold key_le. now apply lt_asym.
      * now apply Hy.
    + constructor; [now constructor |].
      constructor; [exact E |].
      rewrite Forall_forall in *. intros z Hz. unfold key_le.
      apply (le_trans _ (key y)); auto. now apply Hy.
Qed.

Lemma sorted_ascending (l : list A) :
  Forall (fun y => ok (key y)) l -> StronglySorted (key_le lt key) (sorted lt key l).
Proof.
  induction 1 as [ | x l Hx Hl IH]; simpl; [constructor |].
  apply insert_ascending; [exact Hx | | exact IH].
  rewrite Forall_forall in *. intros y Hy. apply Hl.
  now apply (Permutation_in _ (sorted_perm lt key l)).
Qed.

Lemma insert_stable (k : K) (x : A) (l : list A) :
  ok k -> ok (key x) -> Forall (fun y => ok (key y)) l ->
  filter (same_rank lt key k) (insert lt key x l) = filter (same_rank lt key k) (x :: l).
Proof.
  intros Hk Hx Hl. induction Hl as [ | y l Hy Hl IH]; [reflexivity |].
  cbn [insert]. destruct (lt (key y) (key x)) eqn:E; [ | reflexivity].
  cbn [filter] in *. rewrite IH.
  destruct (same_rank lt key k x) eqn:Px, (same_rank lt key k y) eqn:Py; try reflexivity.
  unfold same_rank in Px, Py.
  apply andb_prop in Px as [Px _]. apply andb_prop in Py as [_ Py].
  apply negb_true_iff in Px, Py.
  now rewrite (le_trans _ _ _ Hx Hk Hy Px Py) in E.
Qed.

(** The sort is stable: elements of one rank keep their order. *)
Lemma sorted_stable (k : K) (l : list A) :
  ok k -> Forall (fun y => ok (key y)) l ->
  filter (same_rank lt key k) (sorted lt key l) = filter (same_rank lt key k) l.
Proof.
  intros Hk. induction 1 as [ | x l Hx Hl IH]; [reflexivity |].
  cbn [sorted fold_right]. fold (sorted lt key l).
  rewrite insert_stable; [cbn [filter]; now rewrite IH | exact Hk | exact Hx |].
  rewrite Forall_forall in *. intros y Hy. apply Hl.
  now apply (Permutation_in _ (sorted_perm lt key l)).
Qed.

(** An ascending list is its elements below [top] followed by the others. *)
Lemma ascending_split (top : K) (l : list A) :
  ok top -> Forall (fun y => ok (key y)) l -> StronglySorted (key_le lt key) l ->
  l = filter (fun x => lt (key x) top) l ++ filter (fun x => negb (lt (key x) top)) l.
Proof.
  intros Ht Hl Hs. induction Hs as [ | x l Hs IH Hx]; [reflexivity |].
  inversion Hl as [ | ? ? Hxo Hlo]; subst. cbn [filter].
  destruct (lt (key x) top) eqn:E; cbn [negb app].
  - f_equal. now apply IH.
  - assert (Hall : forall y, In y l -> lt (key y) top = false).
    { intros y Hy. rewrite Forall_forall in Hx, Hlo.
      apply (le_trans _ (key x)); auto. now apply Hx. }
    assert (H1 : filter (fun y => lt (key y) top) l = []).
    { apply filter_nil_iff. exact Hall. }
    assert (H2 : filter (fun y => negb (lt (key y) top)) l = l).
    { apply forallb_filter_id, forallb_forall. intros y Hy.
      now rewrite (Hall y Hy). }
    now rewrite H1, H2.
Qed.

End WeakOrder.

(** The order of the keys is a strict total order. *)
Section TotalOrder.
Context {A K : Type}.
Variable lt : K -> K -> bool.
Variable key : A -> K.

Hypothesis lt_irrefl : forall a, lt a a = false.
Hypothesis lt_trans : forall a b c, lt a b = true -> lt b c = true -> lt a c = true.
Hypothesis lt_total : forall a b, lt a b = false -> lt b a = false -> a = b.

Lemma le_lt_trans (a b c : K) : lt b a = false -> lt b c = true -> lt a c = true.
Proof.
  intros Hab Hbc. destruct (lt a b) eqn:E.
  - eapply lt_trans; eassumption.
  - now rewrite (lt_total _ _ E Hab).
Qed.

Lemma total_le_trans (a b c : K) : lt b a = false -> lt c b = false -> lt c a = false.
Proof.
  intros Hab Hbc. destruct (lt c a) eqn:E; [ | reflexivity].
  now rewrite (le_lt_trans _ _ _ Hbc E) in Hab.
Qed.



End TotalOrder.

(* ================================================================== *)
(** ** Strings *)

(** The order of [str] is a strict total order. *)
Lemma string_ltb_irrefl (s : string) : String.ltb s s = false.
Proof.
  unfold String.ltb. assert (H : String.compare s s = Eq).
  { induction s as [ | c s IH]; simpl; [reflexivity |].
    unfold Ascii.compare. now rewrite N.compare_refl. }
  now rewrite H.
Qed.

Lemma string_compare_lt_trans (a b c : string) :
  String.compare a b = Lt -> String.compare b c = Lt -> String.compare a c = Lt.
Proof.
  revert b c. induction a as [ | x a IH]; intros [ | y b] [ | z c]; simpl;
    try discriminate; try reflexivity.
  unfold Ascii.compare.
  destruct (N.compare_spec (N_of_ascii x) (N_of_ascii y)) as [Exy | Lxy | Gxy];
    try discriminate;
    destruct (N.compare_spec (N_of_ascii y) (N_of_ascii z)) as [Eyz | Lyz | Gyz];
    try discriminate; intros H1 H2.
  - rewrite Exy, Eyz, N.compare_refl. eapply IH; eassumption.
  - rewrite Exy. now apply N.compare_lt_iff in Lyz as ->.
  - rewrite <- Eyz. now apply N.compare_lt_iff in Lxy as ->.
  - assert (L : (N_of_ascii x < N_of_ascii z)%N) by lia.
    now apply N.compare_lt_iff in L as ->.
Qed.

Lemma string_ltb_trans (a b c : string) :
  String.ltb a b = true -> String.ltb b c = true -> String.ltb a c = true.
Proof.
  unfold String.ltb. intros H1 H2.
  destruct (String.compare a b) eqn:E1; try discriminate.
  destruct (String.compare b c) eqn:E2; try discriminate.
  now rewrite (string_compare_lt_trans _ _ _ E1 E2).
Qed.

Lemma string_ltb_total (a b : string) :
  String.ltb a b = false -> String.ltb b a = false -> a = b.
Proof.
  unfold String.ltb. rewrite (String.compare_antisym b a).
  destruct (String.compare a b) eqn:E; simpl; try discriminate.
  intros _ _. now apply String.compare_eq_iff.
Qed.

Lemma string_leb_ltb (a b : string) : String.leb a b = negb (String.ltb b a).
Proof.
  unfold String.leb, String.ltb. rewrite (String.compare_antisym a b).
  now destruct (String.compare b a).
Qed.



Lemma str_in_empty (s : string) : str_in "" s = true.
Proof. now destruct s. Qed.

(* ================================================================== *)
(** ** The order of floats *)

Lemma SFltb_irrefl (x : spec_float) : SFltb x x = false.
Proof.
  unfold SFltb. destruct x as [s | s | | s m e]; simpl; try reflexivity.
  - now destruct s.
  - change (Pos.compare_cont Eq m m) with (Pos.compare m m).
    rewrite Z.compare_refl, Pos.compare_refl. now destruct s.
Qed.

Ltac order_cases :=
  repeat match goal with
         | |- context [Z.compare ?a ?b] =>
             destruct (Z.compare_spec a b); subst; try lia
         | |- context [Pos.compare ?a ?b] =>
             destruct (Pos.compare_spec a b); subst; try lia
         | H : context [Z.compare ?a ?b] |- _ =>
             destruct (Z.compare_spec a b); subst; try lia
         | H : context [Pos.compare ?a ?b] |- _ =>
             destruct (Pos.compare_spec a b); subst; try lia
         end;
  simpl in *; try discriminate; try reflexivity.

Lemma SFltb_trans (x y z : spec_float) :
  SFltb x y = true -> SFltb y z = true -> SFltb x z = true.
Proof.
  unfold SFltb.
  destruct x as [sx | sx | | sx mx ex], y as [sy | sy | | sy my ey],
    z as [sz | sz | | sz mz ez]; simpl; try discriminate; try reflexivity;
    try destruct sx; try destruct sy; try destruct sz; simpl;
    try discriminate; try reflexivity;
    change (Pos.compare_cont Eq) with Pos.compare; intros H1 H2; order_cases.
Qed.

Lemma SFle_trans (x y z : spec_float) :
  x <> S754_nan -> y <> S754_nan -> z <> S754_nan ->
  SFltb y x = false -> SFltb z y = false -> SFltb z x = false.
Proof.
  unfold SFltb. intros Hx Hy Hz.
  destruct x as [sx | sx | | sx mx ex], y as [sy | sy | | sy my ey],
    z as [sz | sz | | sz mz ez]; simpl; try congruence; try reflexivity;
    try destruct sx; try destruct sy; try destruct sz; simpl;
    try discriminate; try reflexivity;
    change (Pos.compare_cont Eq) with Pos.compare; intros H1 H2; order_cases.
Qed.

Lemma not_nan_Prim2SF (f : float) : is_nan f = false -> Prim2SF f <> S754_nan.
Proof.
  unfold is_nan. rewrite eqb_spec. intros H E. now rewrite E in H.
Qed.

Lemma ltb_irrefl (a : float) : (a <? a)%float = false.
Proof. rewrite ltb_spec. apply SFltb_irrefl. Qed.

Lemma ltb_trans (a b c : float) :
  (a <? b)%float = true -> (b <? c)%float = true -> (a <? c)%float = true.
Proof. rewrite !ltb_spec. apply SFltb_trans. Qed.

Lemma leb_trans (a b c : float) :
  is_nan a = false -> is_nan b = false -> is_nan c = false ->
  (b <? a)%float = false -> (c <? b)%float = false -> (c <? a)%float = false.
Proof.
  intros Ha Hb Hc. rewrite !ltb_spec. apply SFle_trans; now apply not_nan_Prim2SF.
Qed.

Lemma infinity_top (a : float) : (infinity <? a)%float = false.
Proof.
  rewrite ltb_spec. change (Prim2SF infinity) with (S754_infinity false).
  unfold SFltb. destruct (Prim2SF a) as [s | s | | s m e]; simpl; try reflexivity.
  now destruct s.
Qed.

(* ================================================================== *)
(** ** Keys, sets and dicts *)

Lemma hkey_eqb_eq (a b : hkey) : hkey_eqb a b = true <-> a = b.
Proof. unfold hkey_eqb. destruct (hkey_eq_dec a b); split; congruence. Qed.

Lemma same_key_iff (a b : pyval) :
  same_key a b = true <-> exists k, key_of a = Some k /\ key_of b = Some k.
Proof.
  unfold same_key. destruct (key_of a) as [x | ], (key_of b) as [y | ].
  - rewrite hkey_eqb_eq. split; [intros ->; eauto | intros (k & [= ->] & [= ->]); auto].
  - split; [discriminate | intros (k & _ & H); discriminate].
  - split; [discriminate | intros (k & H & _); discriminate].
  - split; [discriminate | intros (k & H & _); discriminate].
Qed.

Lemma same_key_refl (a : pyval) : hashable a = true -> same_key a a = true.
Proof.
  unfold hashable. intros H. apply same_key_iff.
  destruct (key_of a) as [k | ]; [eauto | discriminate].
Qed.

Lemma same_key_sym (a b : pyval) : same_key a b = same_key b a.
Proof.
  destruct (same_key a b) eqn:E1, (same_key b a) eqn:E2; try reflexivity.
  - apply same_key_iff in E1 as (k & Ha & Hb).
    assert (H : same_key b a = true) by (apply same_key_iff; eauto). congruence.
  - apply same_key_iff in E2 as (k & Ha & Hb).
    assert (H : same_key a b = true) by (apply same_key_iff; eauto). congruence.
Qed.

Lemma same_key_congr (a b c : pyval) :
  same_key a b = true -> same_key a c = same_key b c.
Proof.
  intros H. apply same_key_iff in H as (k & Ha & Hb).
  unfold same_key. now rewrite Ha, Hb.
Qed.

Section DictFacts.
Context {V : Type}.
Implicit Types (d : list (pyval * V)) (k x : pyval) (v : V).

Lemma dict_lookup_congr d k x :
  same_key k x = true -> dict_lookup k d = dict_lookup x d.
Proof.
  intros H. induction d as [ | [k' v'] d IH]; simpl; [reflexivity |].
  now rewrite (same_key_congr _ _ k' H), IH.
Qed.

Lemma dict_lookup_set_same d k v :
  hashable k = true -> dict_lookup k (dict_set k v d) = Some v.
Proof.
  intros Hk. induction d as [ | [k' v'] d IH]; simpl.
  - now rewrite same_key_refl.
  - destruct (same_key k k') eqn:E; simpl; now rewrite E.
Qed.

Lemma dict_lookup_set_other d k x v :
  same_key k x = false -> dict_lookup x (dict_set k v d) = dict_lookup x d.
Proof.
  intros Hkx. induction d as [ | [k' v'] d IH]; simpl.
  - now rewrite same_key_sym, Hkx.
  - destruct (same_key k k') eqn:E; simpl.
    + destruct (same_key x k') eqn:E'; [ | reflexivity].
      rewrite (same_key_congr _ _ x E), same_key_sym, E' in Hkx. discriminate.
    + now rewrite IH.
Qed.

Lemma dict_set_fst d k v :
  map fst (dict_set k v d) =
  if existsb (same_key k) (map fst d) then map fst d else map fst d ++ [k].
Proof.
  induction d as [ | [k' v'] d IH]; simpl; [reflexivity |].
  destruct (same_key k k'); simpl; [reflexivity |].
  rewrite IH. now destruct (existsb _ _).
Qed.

End DictFacts.


Lemma dict_set_sum (k : pyval) (d : list (pyval * nat)) :
  list_sum (map snd (dict_set k (dict_default 0 k d + 1) d))%nat
  = (list_sum (map snd d) + 1)%nat.
Proof.
  unfold dict_default. induction d as [ | [k' v'] d IH]; simpl; [reflexivity |].
  destruct (same_key k k'); simpl; [lia |]. rewrite IH. lia.
Qed.

Lemma dict_items {V} (v0 : V) (d : list (pyval * V)) :
  NoDup (map key_of (map fst d)) ->
  Forall (fun k => hashable k = true) (map fst d) ->
  d = map (fun k => (k, dict_default v0 k d)) (map fst d).
Proof.
  induction d as [ | [k v] d IH]; simpl; [reflexivity |].
  intros Hn Hh. inversion Hn as [ | ? ? Hk Hn']; subst.
  inversion Hh as [ | ? ? Hkh Hh']; subst.
  unfold dict_default at 1. simpl. rewrite same_key_refl by exact Hkh.
  f_equal. rewrite (IH Hn' Hh') at 1. apply map_ext_in. intros x Hx.
  unfold dict_default. simpl.
  destruct (same_key x k) eqn:E; [ | reflexivity].
  destruct Hk. apply same_key_iff in E as (h & Ha & Hb).
  rewrite Hb, <- Ha. now apply in_map.
Qed.

Lemma set_add_spec (k : pyval) (s : list pyval) :
  set_add k s = if existsb (same_key k) s then s else s ++ [k].
Proof.
  induction s as [ | k' s IH]; simpl; [reflexivity |].
  destruct (same_key k k'); simpl; [reflexivity |].
  rewrite IH. now destruct (existsb _ _).
Qed.

Lemma fold_set_add (l s : list pyval) :
  fold_left (fun s k => set_add k s) l s = s ++ first_seen s l.
Proof.
  revert s. induction l as [ | x l IH]; intros s; simpl.
  - now rewrite app_nil_r.
  - rewrite IH, set_add_spec. destruct (existsb _ _); [reflexivity |].
    now rewrite <- app_assoc.
Qed.

Lemma py_set_spec (l : list pyval) :
  py_set l = if forallb hashable l then inr (first_seen [] l) else inl TypeError.
Proof. unfold py_set. now rewrite fold_set_add. Qed.


Section Group.
Context {X V : Type}.
Variable keyf : X -> pyval.
Variable step : V -> X -> V.
Variable v0 : V.

Lemma group_keys (xs : list X) (d : list (pyval * V)) :
  map fst (group keyf step v0 d xs) = map fst d ++ first_seen (map fst d) (map keyf xs).
Proof.
  unfold group. revert d. induction xs as [ | x xs IH]; intros d; simpl.
  - now rewrite app_nil_r.
  - rewrite IH. unfold group_step. rewrite dict_set_fst.
    destruct (existsb _ _); [reflexivity |]. now rewrite <- app_assoc.
Qed.

(** The value of a key after the loop: the steps of the elements of that
    key, in their order. *)
Lemma group_value (xs : list X) (d : list (pyval * V)) (k : pyval) :
  Forall (fun x => hashable (keyf x) = true) xs ->
  dict_default v0 k (group keyf step v0 d xs) =
  fold_left step (filter (fun x => same_key k (keyf x)) xs) (dict_default v0 k d).
Proof.
  intros H. unfold group. revert d.
  induction H as [ | x xs Hx _ IH]; intros d; simpl; [reflexivity |].
  rewrite IH.
  transitivity (fold_left step (filter (fun x => same_key k (keyf x)) xs)
                  (if same_key k (keyf x) then step (dict_default v0 k d) x
                   else dict_default v0 k d));
    [ | now destruct (same_key k (keyf x))].
  f_equal.
  unfold group_step, dict_default.
  destruct (same_key k (keyf x)) eqn:E; simpl.
  - rewrite !(dict_lookup_congr _ _ _ E), dict_lookup_set_same by exact Hx.
    reflexivity.
  - rewrite dict_lookup_set_other; [reflexivity |]. now rewrite same_key_sym.
Qed.

End Group.


(** *** The distinct elements *)

Lemma existsb_same_key (x : pyval) (seen : list pyval) :
  hashable x = true ->
  existsb (same_key x) seen = true <-> In (key_of x) (map key_of seen).
Proof.
  intros Hx. rewrite existsb_exists, in_map_iff. split.
  - intros (y & Hy & E). exists y. split; [ | exact Hy].
    apply same_key_iff in E as (k & Ha & Hb). congruence.
  - intros (y & E & Hy). exists y. split; [exact Hy |].
    apply same_key_iff. unfold hashable in Hx.
    destruct (key_of x) as [k | ]; [eauto | discriminate].
Qed.

Lemma first_seen_keys (l seen : list pyval) :
  forallb hashable l = true ->
  NoDup (map key_of seen) ->
  NoDup (map key_of (seen ++ first_seen seen l)) /\
  forall k, In k (map key_of (seen ++ first_seen seen l)) <->
            In k (map key_of (seen ++ l)).
Proof.
  revert seen. induction l as [ | x l IH]; intros seen Hl Hs; simpl.
  - rewrite app_nil_r. tauto.
  - simpl in Hl. apply andb_prop in Hl as [Hx Hl].
    destruct (existsb (same_key x) seen) eqn:E.
    + destruct (IH seen Hl Hs) as [Hn Hi]. split; [exact Hn |].
      intros k. rewrite Hi, !map_app, !in_app_iff. simpl.
      apply existsb_same_key in E; [ | exact Hx].
      split; [tauto |]. intros [H | [<- | H]]; auto.
    + assert (Hs' : NoDup (map key_of (seen ++ [x]))).
      { rewrite map_app. simpl.
        apply (Permutation_NoDup (Permutation_cons_append _ _)).
        constructor; [ | exact Hs].
        intros Hin. apply existsb_same_key in Hin; [congruence | exact Hx]. }
      destruct (IH (seen ++ [x]) Hl Hs') as [Hn Hi].
      rewrite <- !app_assoc in Hn, Hi. simpl in Hn, Hi.
      split; [exact Hn |]. intros k. rewrite Hi, <- app_assoc. reflexivity.
Qed.

Lemma first_seen_length (l : list pyval) :
  forallb hashable l = true ->
  List.length (first_seen [] l) = distinct_count l.
Proof.
  intros Hl. destruct (first_seen_keys l [] Hl (NoDup_nil _)) as [Hn Hi].
  simpl in Hn, Hi. unfold distinct_count.
  rewrite <- (length_map key_of). apply Permutation_length.
  apply NoDup_Permutation; [exact Hn | apply NoDup_nodup |].
  intros k. now rewrite Hi, nodup_In.
Qed.

Lemma first_seen_hashable (l seen : list pyval) :
  forallb hashable l = true -> Forall (fun x => hashable x = true) (first_seen seen l).
Proof.
  revert seen. induction l as [ | x l IH]; intros seen Hl; simpl; [constructor |].
  simpl in Hl. apply andb_prop in Hl as [Hx Hl].
  destruct (existsb _ _); [now apply IH |]. constructor; [exact Hx | now apply IH].
Qed.

Lemma first_seen_In (l seen : list pyval) (k : pyval) :
  In k (first_seen seen l) -> In k l.
Proof.
  revert seen. induction l as [ | x l IH]; intros seen; simpl; [tauto |].
  destruct (existsb _ _).
  - intros H. right. now apply (IH seen).
  - intros [<- | H]; [now left | right; now apply (IH (seen ++ [x]))].
Qed.

Lemma count_first_seen_pos (l seen : list pyval) (k : pyval) :
  In k (first_seen seen l) -> hashable k = true -> (1 <= count k l)%nat.
Proof.
  intros Hk Hh. apply first_seen_In in Hk. unfold count.
  assert (Hf : In k (filter (same_key k) l)).
  { apply filter_In. split; [exact Hk | now apply same_key_refl]. }
  destruct (filter (same_key k) l); [destruct Hf | simpl; lia].
Qed.

(** *** Counter *)

Lemma Counter_group (l : list pyval) :
  Counter l = group (fun x => x) (fun v _ => (v + 1)%nat) 0%nat [] l.
Proof. reflexivity. Qed.

(** A counter holds each distinct element once, in the order of first
    occurrence, with the number of its occurrences. *)
Lemma Counter_spec (l : list pyval) :
  forallb hashable l = true ->
  Counter l = map (fun k => (k, count k l)) (first_seen [] l).
Proof.
  intros Hl. rewrite Counter_group.
  assert (Hf : Forall (fun x => hashable x = true) l).
  { apply Forall_forall. now apply forallb_forall. }
  pose proof (group_keys (fun x => x) (fun v _ => (v + 1)%nat) 0%nat l []) as Hk.
  simpl in Hk. rewrite map_id in Hk.
  destruct (first_seen_keys l [] Hl (NoDup_nil _)) as [Hn _]. simpl in Hn.
  rewrite (dict_items 0%nat (group _ _ _ _ _)) at 1.
  - rewrite Hk. apply map_ext. intros k. f_equal.
    rewrite group_value by exact Hf. simpl. now rewrite fold_succ.
  - now rewrite Hk.
  - rewrite Hk. now apply first_seen_hashable.
Qed.

Lemma Counter_sum (l : list pyval) : list_sum (map snd (Counter l)) = List.length l.
Proof.
  unfold Counter.
  assert (H : forall c, list_sum (map snd
                (fold_left (fun c elem => dict_set elem (dict_default 0 elem c + 1) c) l c))%nat
              = (list_sum (map snd c) + List.length l)%nat).
  { induction l as [ | x l IH]; intros c; simpl; [lia |].
    rewrite IH, dict_set_sum. lia. }
  now rewrite H.
Qed.

Lemma duplicates_iff (all_ids : list pyval) :
  forallb hashable all_ids = true ->
  List.length all_ids = distinct_count all_ids <-> duplicate_groups all_ids = [].
Proof.
  intros Hh. pose proof (Counter_sum all_ids) as Hs.
  rewrite (Counter_spec _ Hh) in Hs.
  assert (Hp : Forall (fun n => (1 <= n)%nat)
                 (map snd (map (fun k => (k, count k all_ids)) (first_seen [] all_ids)))).
  { rewrite map_map. simpl. apply Forall_forall. intros n Hn.
    apply in_map_iff in Hn as (k & <- & Hk).
    apply (count_first_seen_pos all_ids [] k Hk).
    pose proof (first_seen_hashable all_ids [] Hh) as Hf.
    rewrite Forall_forall in Hf. now apply Hf. }
  destruct (sum_of_positive _ Hp) as [Hiff _].
  rewrite Hs, !length_map, (first_seen_length _ Hh), filter_map_snd in Hiff.
  unfold duplicate_groups. rewrite Hiff. split; [ | now intros ->].
  intros H. now apply map_eq_nil in H.
Qed.

(* ================================================================== *)
(** ** process_file *)

Lemma process_file_outcome (w : world) (file_path : file) :
  outcome (process_file w file_path) = inr (rows_of w file_path).
Proof.
  unfold process_file, process_file_body, rows_of.
  destruct (content file_path) as [e | kafka_message]; [reflexivity |].
  destruct kafka_message as [ | b | z | f | s | l | d]; try reflexivity.
  - (* a string: [in] is the substring test, the subscript raises *)
    simpl. destruct (str_in "Value" s); reflexivity.
  - (* a list *)
    simpl.
    destruct (existsb _ l); reflexivity.
  - (* a dict *)
    simpl. destruct (dict_get d "Value") as [v | ] eqn:Hv; simpl.
    + destruct v as [ | b | z | f | s | l | d']; simpl;
        try (destruct (dict_get d "data") as [rows | ]; simpl;
             [destruct (truthy rows) | ]; reflexivity).
      destruct (json_loads w s) as [e | inner]; simpl.
      * destruct e; reflexivity.
      * destruct inner as [ | b | z | f | s' | l | d']; try reflexivity.
        simpl. destruct (dict_get d' "data") as [rows | ]; simpl;
          [destruct (truthy rows) | ]; reflexivity.
    + destruct (dict_get d "data") as [rows | ]; simpl;
        [destruct (truthy rows) | ]; reflexivity.
Qed.


(* ================================================================== *)
(** ** How a run ends *)

Lemma collect_rows_outcome (w : world) (all_files : list file) (all_rows : list pyval) :
  outcome (collect_rows w all_rows all_files) =
  match extracted_rows w all_files with
  | inl e => inl (Raise e)
  | inr rows => inr (all_rows ++ rows)
  end.
Proof.
  revert all_rows. induction all_files as [ | file_path rest IH]; intros all_rows.
  - simpl. now rewrite app_nil_r.
  - cbn [collect_rows extracted_rows].
    rewrite !outcome_bind. cbn [print outcome snd].
    rewrite process_file_outcome, outcome_bind, outcome_lift.
    destruct (py_iter (rows_of w file_path)) as [e | rows]; [reflexivity |].
    rewrite outcome_bind. cbn [print outcome snd]. rewrite IH.
    destruct (extracted_rows w rest) as [e | more]; [reflexivity |].
    now rewrite app_assoc.
Qed.

Lemma print_duplicates_outcome (i n : nat) (items : list (pyval * nat)) :
  outcome (print_duplicates i n items) = inr tt.
Proof.
  revert i. induction items as [ | [id count] rest IH]; intros i;
    cbn [print_duplicates]; [reflexivity |].
  destruct (5 <=? i)%nat; [reflexivity |].
  rewrite outcome_bind. cbn [print outcome snd]. apply IH.
Qed.

Lemma print_units_outcome (pcu : list (pyval * float)) (icu : list (pyval * nat))
    (units : list pyval) :
  outcome (print_units pcu icu units) = inr tt.
Proof.
  induction units as [ | unit rest IH]; cbn [print_units]; [reflexivity |].
  rewrite !outcome_bind. cbn [print outcome snd]. apply IH.
Qed.

Lemma print_files_outcome (all_files : list file) :
  outcome (print_files all_files) = inr tt.
Proof.
  induction all_files as [ | f rest IH]; cbn [print_files]; [reflexivity |].
  rewrite outcome_bind. cbn [print outcome snd]. apply IH.
Qed.

Lemma id_check_outcome (all_rows : list pyval) :
  outcome (id_check all_rows) =
  match collect_ids all_rows with
  | inl e => inl (Raise e)
  | inr all_ids =>
      match py_set all_ids with
      | inl e => inl (Raise e)
      | inr _ => inr tt
      end
  end.
Proof.
  unfold id_check. rewrite outcome_bind, outcome_lift.
  destruct (collect_ids all_rows) as [e | all_ids]; [reflexivity |].
  rewrite outcome_bind. cbn [print outcome snd].
  rewrite outcome_bind, outcome_lift.
  destruct (py_set all_ids) as [e | ids_set]; [reflexivity |].
  destruct (negb _).
  - rewrite !outcome_bind. cbn [print outcome snd].
    apply print_duplicates_outcome.
  - now rewrite outcome_bind.
Qed.

Lemma set_locale_outcome (w : world) :
  outcome (set_locale w) =
  if locale_available w then inr tt else inl (Raise LocaleError).
Proof.
  unfold set_locale, locale_available.
  destruct (setlocale w "de_DE.UTF-8"); [reflexivity |].
  destruct (setlocale w "en_US.UTF-8"); [reflexivity |].
  rewrite outcome_bind. simpl. now destruct (setlocale w "").
Qed.

Lemma report_outcome (w : world) (all_rows : list pyval) :
  outcome (report w all_rows) =
  match report_check w all_rows with
  | inl e => inl (Raise e)
  | inr _ => inr tt
  end.
Proof.
  unfold report, report_check.
  rewrite outcome_bind, id_check_outcome.
  destruct (collect_ids all_rows) as [e | all_ids]; [reflexivity |].
  destruct (py_set all_ids) as [e | ids_set]; [reflexivity |].
  rewrite outcome_bind, outcome_lift.
  destruct (grand_total 0 all_rows) as [e | total]; [reflexivity |].
  rewrite outcome_bind, set_locale_outcome.
  destruct (locale_available w); [ | reflexivity].
  repeat (rewrite outcome_bind; cbn [print outcome snd]).
  rewrite outcome_lift.
  destruct (breakdown [] [] all_rows) as [e | dicts]; [reflexivity |].
  repeat (rewrite outcome_bind; cbn [print outcome snd]).
  rewrite outcome_lift.
  destruct (sorted_units w (map fst (fst dicts))) as [e | units]; [reflexivity |].
  apply print_units_outcome.
Qed.

Lemma main_outcome (w : world) : outcome (main w) = run_outcome w.
Proof.
  unfold main, run_outcome, all_files_of.
  destruct (argv w) as [ | script [ | directory [ | file_pattern rest]]];
    try reflexivity.
  destruct (iterdir w directory) as [items | ]; [ | reflexivity].
  rewrite outcome_bind. cbn [print outcome snd].
  destruct (discover file_pattern items) as [ | f fs] eqn:Hd; [reflexivity |].
  rewrite outcome_bind. cbn [print outcome snd].
  rewrite outcome_bind, print_files_outcome.
  rewrite outcome_bind, collect_rows_outcome.
  destruct (extracted_rows w _) as [e | all_rows]; [reflexivity |].
  cbn [app]. rewrite outcome_bind. cbn [print outcome snd].
  destruct all_rows as [ | row rows]; [reflexivity |].
  apply report_outcome.
Qed.

Lemma sys_exit_iff_fatal (w : world) (m : exit_msg) :
  run_outcome w = inl (SysExit m) <-> fatal_condition w = Some m.
Proof.
  unfold run_outcome, fatal_condition.
  destruct (argv w) as [ | script [ | directory [ | file_pattern rest]]];
    try (split; intros [= <-]; reflexivity).
  destruct (iterdir w directory) as [items | ];
    [ | split; intros [= <-]; reflexivity].
  destruct (discover file_pattern items) as [ | f fs];
    [split; intros [= <-]; reflexivity |].
  destruct (extracted_rows w _) as [e | [ | r rows]];
    try (split; intros [= <-]; reflexivity); try (split; discriminate).
  destruct (report_check w (r :: rows)); split; discriminate.
Qed.

(* ================================================================== *)
(** ** Well-typed rows *)


Lemma float_add_to_float (acc : float) (v : pyval) :
  is_number v = true -> float_add acc v = inr (acc + to_float v)%float.
Proof.
  destruct v; simpl; try discriminate; try reflexivity.
  now destruct (float_of_int z).
Qed.













(* ================================================================== *)
(** ** File discovery *)

Lemma discover_empty_pattern (items : list file) :
  discover "" items = filter is_file items.
Proof.
  unfold discover. apply filter_ext. intros f. simpl.
  now rewrite str_in_empty, andb_true_r.
Qed.

Lemma all_files_of_sorted (file_pattern : string) (items : list file) :
  StronglySorted (fun f g => String.leb (name f) (name g) = true)
    (all_files_of file_pattern items).
Proof.
  unfold all_files_of.
  eapply StronglySorted_ind with (P := StronglySorted _);
    [constructor | | apply (sorted_ascending String.ltb name (fun _ => True))].
  - intros f l _ IH Hf. constructor; [exact IH |].
    eapply Forall_impl; [ | exact Hf]. intros g Hg. unfold key_le in Hg.
    now rewrite string_leb_ltb, Hg.
  - intros a _. apply string_ltb_irrefl.
  - intros a b c _ _ _. apply string_ltb_trans.
  - intros a b c _ _ _.
    apply (total_le_trans String.ltb string_ltb_trans string_ltb_total).
  - apply Forall_forall. trivial.
Qed.


Lemma print_files_output (all_files : list file) :
  output (print_files all_files) = map (fun f => FileItem (name f)) all_files.
Proof.
  induction all_files as [ | f rest IH]; cbn [print_files map]; [reflexivity |].
  rewrite output_bind. cbn [print output outcome fst snd]. now rewrite IH.
Qed.

(* ================================================================== *)
(** ** The identifier check *)

Lemma collect_ids_spec (all_rows : list pyval) :
  forallb is_dict all_rows = true -> collect_ids all_rows = inr (present_ids all_rows).
Proof.
  induction all_rows as [ | row rest IH]; simpl; [reflexivity |].
  intros H. apply andb_prop in H as [Hr Hrest]. rewrite (IH Hrest).
  destruct row as [ | | | | | | d]; try discriminate. simpl.
  destruct (dict_get d "id") as [id | ]; simpl; [ | reflexivity].
  now destruct (truthy id).
Qed.

Lemma print_duplicates_output (items : list (pyval * nat)) (i n : nat) :
  output (print_duplicates i n items) =
  map (fun g => DupId (fst g) (snd g)) (firstn (5 - i) items)
  ++ (if (5 - i <? List.length items)%nat then [DupMore (n - 5)] else []).
Proof.
  revert i. induction items as [ | [id c] rest IH]; intros i;
    cbn [print_duplicates].
  - rewrite firstn_nil. simpl. now rewrite Nat.ltb_irrefl || destruct (5 - i)%nat.
  - destruct (5 <=? i)%nat eqn:E.
    + apply Nat.leb_le in E. replace (5 - i)%nat with 0%nat by lia. reflexivity.
    + apply Nat.leb_gt in E. rewrite output_bind. cbn [print output outcome fst snd].
      rewrite IH. replace (5 - i)%nat with (S (5 - S i)) by lia.
      cbn [firstn map app List.length fst snd]. reflexivity.
Qed.

Lemma id_check_output (all_rows : list pyval) :
  forallb is_dict all_rows = true ->
  forallb hashable (present_ids all_rows) = true ->
  output (id_check all_rows) =
  IdCheckHeader ::
  if (List.length (present_ids all_rows) =? distinct_count (present_ids all_rows))%nat
  then [AllUnique; UniqueTotalItems (List.length all_rows)]
  else
    DupFound :: DupTotalItems (List.length all_rows)
      :: DupUniqueIds (distinct_count (present_ids all_rows))
      :: DupNumber (List.length (duplicate_groups (present_ids all_rows)))
      :: map (fun g => DupId (fst g) (snd g))
           (firstn 5 (duplicate_groups (present_ids all_rows)))
      ++ (if (5 <? List.length (duplicate_groups (present_ids all_rows)))%nat
          then [DupMore (List.length (duplicate_groups (present_ids all_rows)) - 5)]
          else []).
Proof.
  intros Hd Hh. unfold id_check.
  rewrite (collect_ids_spec _ Hd).
  rewrite output_bind, output_lift, outcome_lift. cbn [app].
  rewrite output_bind. cbn [print output outcome fst snd app].
  rewrite output_bind, output_lift, outcome_lift, py_set_spec, Hh. cbn [app].
  rewrite (first_seen_length _ Hh). f_equal.
  destruct (List.length (present_ids all_rows) =? distinct_count (present_ids all_rows))%nat;
    cbn [negb]; [reflexivity |].
  unfold duplicates_of. rewrite (Counter_spec _ Hh).
  fold (duplicate_groups (present_ids all_rows)).
  repeat (rewrite output_bind; cbn [print output outcome fst snd app]).
  now rewrite print_duplicates_output.
Qed.

(* ================================================================== *)
(** ** The order of the cost units *)

Lemma sort_keys_spec (w : world) (units : list pyval) (ks : list (float * pyval)) :
  sort_keys w units = inr ks ->
  map snd ks = units /\ Forall (fun ku => sort_key w (snd ku) = inr (fst ku)) ks.
Proof.
  revert ks. induction units as [ | unit rest IH]; intros ks; simpl.
  - intros [= <-]. split; [reflexivity | constructor].
  - destruct (sort_key w unit) as [e | k] eqn:Hk; [discriminate |].
    destruct (sort_keys w rest) as [e | ks']; [discriminate |].
    intros [= <-]. destruct (IH ks' eq_refl) as [Hm Hf]. simpl.
    split; [now rewrite Hm | now constructor].
Qed.

(** The cost units come out as those whose sort key is below infinity, in
    ascending order of the key, followed by the others in the order they
    were met; no key is a NaN. *)
Lemma sorted_units_split (w : world) (units : list pyval) (ks : list (float * pyval)) :
  sort_keys w units = inr ks ->
  Forall (fun ku => is_nan (fst ku) = false) ks ->
  exists below,
    sorted_units w units
    = inr (map snd below
           ++ map snd (filter (fun ku => negb (fst ku <? infinity)%float) ks)) /\
    Permutation below (filter (fun ku => (fst ku <? infinity)%float) ks) /\
    StronglySorted (fun a b => (fst b <? fst a)%float = false) below.
Proof.
  intros Hks Hok. unfold sorted_units. rewrite Hks.
  set (S := sorted PrimFloat.ltb fst ks).
  assert (HokS : Forall (fun ku => is_nan (fst ku) = false) S).
  { rewrite Forall_forall in *. intros ku Hin. apply Hok.
    now apply (Permutation_in _ (sorted_perm PrimFloat.ltb fst ks)). }
  assert (Hasc : StronglySorted (key_le PrimFloat.ltb fst) S).
  { apply (sorted_ascending PrimFloat.ltb fst (fun k => is_nan k = false));
      [intros a _; apply ltb_irrefl | intros a b c _ _ _; apply ltb_trans
       | exact leb_trans | exact Hok]. }
  exists (filter (fun ku => (fst ku <? infinity)%float) S). split; [ | split].
  - rewrite <- map_app. do 2 f_equal.
    rewrite (ascending_split PrimFloat.ltb fst (fun k => is_nan k = false)
               leb_trans infinity S eq_refl HokS Hasc) at 1.
    f_equal.
    assert (Hrank : forall ku : float * pyval,
               negb (fst ku <? infinity)%float = same_rank PrimFloat.ltb fst infinity ku).
    { intros ku. unfold same_rank. now rewrite infinity_top. }
    rewrite !(filter_ext _ _ Hrank).
    apply (sorted_stable PrimFloat.ltb fst (fun k => is_nan k = false)
             leb_trans infinity ks eq_refl Hok).
  - apply filter_perm, sorted_perm.
  - apply StronglySorted_filter. exact Hasc.
Qed.

(* ================================================================== *)
(** ** The totals printed *)










(* ================================================================== *)
(** ** The order of the listing *)





(* ================================================================== *)
(** * The specified properties *)

(* ================================================================== *)
(** ** C1: the grand total *)




(* ================================================================== *)
(** ** C2: the breakdown by cost unit *)




(* ================================================================== *)
(** ** C3: record extraction *)



(* ================================================================== *)
(** ** C4: exit status *)




(* ================================================================== *)
(** ** C5: the uniqueness check *)

(** C5.  Over rows that are JSON objects with hashable identifiers, the
    check collects exactly the identifiers that are present and truthy, and
    it reports duplicates if and only if the number of collected
    identifiers differs from the number of distinct collected values, and
    uniqueness otherwise.  For the identifiers ["a"], ["a"], ["b"] it
    reports 2 unique identifiers, 1 duplicate group, and ["a"] twice. *)
Theorem C5_uniqueness_check (all_rows : list pyval) :
  forallb is_dict all_rows = true ->
  forallb hashable (present_ids all_rows) = true ->
  collect_ids all_rows = inr (present_ids all_rows) /\
  (In DupFound (output (id_check all_rows)) <->
   List.length (present_ids all_rows) <> distinct_count (present_ids all_rows)) /\
  (In AllUnique (output (id_check all_rows)) <->
   List.length (present_ids all_rows) = distinct_count (present_ids all_rows)) /\
  output (id_check rows_aab)
  = [IdCheckHeader; DupFound; DupTotalItems 3; DupUniqueIds 2; DupNumber 1;
     DupId (PStr "a") 2].
Proof.
  intros Hd Hh. split; [now apply collect_ids_spec |].
  rewrite (id_check_output _ Hd Hh).
  destruct (Nat.eqb_spec (List.length (present_ids all_rows))
              (distinct_count (present_ids all_rows))) as [E | E].
  - repeat split; try tauto.
    + intros [H | [H | [H | []]]]; discriminate.
    + intros _. right. now left.
  - repeat split; try tauto.
    + intros _. right. now left.
    + intros [H | [H | [H | [H | [H | H]]]]]; try discriminate.
      apply in_app_or in H as [H | H].
      * apply in_map_iff in H as (g & H & _). discriminate.
      * destruct (5 <? _)%nat; [destruct H as [H | []]; discriminate | destruct H].
Qed.

Lemma C5_uniqueness_check_witness :
  In DupFound (output (id_check rows_aab)) /\
  collect_ids rows_aab = inr [PStr "a"; PStr "a"; PStr "b"].
Proof.
  split.
  - apply (proj1 (proj2 (C5_uniqueness_check rows_aab eq_refl eq_refl))).
    vm_compute. discriminate.
  - exact (proj1 (C5_uniqueness_check rows_aab eq_refl eq_refl)).
Defined.

(* ================================================================== *)
(** ** C6: the order of the cost units *)

(** C6.  When no sort key is a NaN, the units are printed as those whose
    key is below infinity, in ascending order of the key, followed by all
    the others in the order they were met.  The others are the labels that
    do not parse as a number and those that parse to infinity, which get
    the same key: in a world where [float("inf")] is infinity and
    [float("abc")] raises [ValueError], the labels ["abc"], ["inf"] met in
    this order are printed in this order, the non-numeric one before the
    numeric one.  The units ["10"], ["2"], ["abc"] of the specification's
    example do come out as ["2"], ["10"], ["abc"]. *)
Theorem C6_sort_key_collision (w : world) :
  (forall units ks,
      sort_keys w units = inr ks ->
      Forall (fun ku => is_nan (fst ku) = false) ks ->
      map snd ks = units /\
      Forall (fun ku => sort_key w (snd ku) = inr (fst ku)) ks /\
      exists below,
        sorted_units w units
        = inr (map snd below
               ++ map snd (filter (fun ku => negb (fst ku <? infinity)%float) ks)) /\
        Permutation below (filter (fun ku => (fst ku <? infinity)%float) ks) /\
        StronglySorted (fun a b => (fst b <? fst a)%float = false) below) /\
  (float_of_str w "inf" = Some infinity ->
   float_of_str w "abc" = None ->
   sort_key w (PStr "inf") = inr infinity /\
   sort_key w (PStr "abc") = inr infinity /\
   sorted_units w [PStr "abc"; PStr "inf"] = inr [PStr "abc"; PStr "inf"]) /\
  (float_of_str w "abc" = None ->
   float_of_str w "10" = Some 10%float ->
   float_of_str w "2" = Some 2%float ->
   sorted_units w [PStr "10"; PStr "2"; PStr "abc"]
   = inr [PStr "2"; PStr "10"; PStr "abc"]).
Proof.
  split; [ | split].
  - intros units ks Hks Hok. destruct (sort_keys_spec _ _ _ Hks) as [Hm Hf].
    split; [exact Hm | split; [exact Hf |]]. now apply sorted_units_split.
  - intros Hinf Habc. unfold sorted_units, sort_keys, sort_key, py_float.
    rewrite Hinf, Habc. repeat split.
  - intros Habc H10 H2. unfold sorted_units, sort_keys, sort_key, py_float.
    rewrite Habc, H10, H2. reflexivity.
Qed.

Lemma C6_sort_key_collision_witness :
  sorted_units (example_world [] []) [PStr "abc"; PStr "inf"]
  = inr [PStr "abc"; PStr "inf"] /\
  sorted_units (example_world [] []) [PStr "10"; PStr "2"; PStr "abc"]
  = inr [PStr "2"; PStr "10"; PStr "abc"].
Proof.
  split.
  - exact (proj2 (proj2 (proj1 (proj2 (C6_sort_key_collision (example_world [] [])))
                           eq_refl eq_refl))).
  - exact (proj2 (proj2 (C6_sort_key_collision (example_world [] [])))
             eq_refl eq_refl eq_refl).
Defined.

(* ================================================================== *)
(** ** C7: file discovery *)



(* ================================================================== *)
(** ** C8: the report of duplicates *)

(** C8.  Over rows that are JSON objects with hashable identifiers: when
    some identifier occurs more than once, the report lists the duplicate
    identifiers with their number of occurrences in the order of their first
    occurrence, the first five of them one by one and then, when there are
    more than five, one line with the number of the remaining ones; when no
    identifier occurs twice, it prints the success line and the number of
    items. *)
Theorem C8_duplicate_report (all_rows : list pyval) :
  forallb is_dict all_rows = true ->
  forallb hashable (present_ids all_rows) = true ->
  (duplicate_groups (present_ids all_rows) <> [] ->
   output (id_check all_rows)
   = IdCheckHeader :: DupFound :: DupTotalItems (List.length all_rows)
       :: DupUniqueIds (distinct_count (present_ids all_rows))
       :: DupNumber (List.length (duplicate_groups (present_ids all_rows)))
       :: map (fun g => DupId (fst g) (snd g))
            (firstn 5 (duplicate_groups (present_ids all_rows)))
       ++ (if (5 <? List.length (duplicate_groups (present_ids all_rows)))%nat
           then [DupMore (List.length (duplicate_groups (present_ids all_rows)) - 5)]
           else [])) /\
  (duplicate_groups (present_ids all_rows) = [] ->
   output (id_check all_rows)
   = [IdCheckHeader; AllUnique; UniqueTotalItems (List.length all_rows)]).
Proof.
  intros Hd Hh. rewrite (id_check_output _ Hd Hh).
  pose proof (duplicates_iff _ Hh) as Hiff.
  destruct (Nat.eqb_spec (List.length (present_ids all_rows))
              (distinct_count (present_ids all_rows))) as [E | E].
  - split; [ | reflexivity]. intros Hne. now destruct Hne; apply Hiff.
  - split; [reflexivity |]. intros He. now destruct E; apply Hiff.
Qed.

Lemma C8_duplicate_report_witness :
  output (id_check rows_six_twice)
  = [IdCheckHeader; DupFound; DupTotalItems 13; DupUniqueIds 7; DupNumber 6;
     DupId (PInt 1) 2; DupId (PInt 2) 2; DupId (PInt 3) 2; DupId (PInt 4) 2;
     DupId (PInt 5) 2; DupMore 1] /\
  output (id_check [PDict [("id", PStr "a")]; PDict []])
  = [IdCheckHeader; AllUnique; UniqueTotalItems 2].
Proof.
  split.
  - apply (proj1 (C8_duplicate_report rows_six_twice eq_refl eq_refl)).
    vm_compute. discriminate.
  - now apply (proj2 (C8_duplicate_report [PDict [("id", PStr "a")]; PDict []]
                        eq_refl eq_refl)).
Defined.

(* ================================================================== *)
(** ** C9: the empty pattern *)

(** C9.  With the empty pattern, discovery keeps every regular file of the
    directory, so the run stops on "no files found" exactly when the
    directory holds no regular file. *)
Theorem C9_empty_pattern (w : world) (script directory : string)
    (rest : list string) (items : list file) :
  argv w = script :: directory :: "" :: rest ->
  iterdir w directory = Some items ->
  discover "" items = filter is_file items /\
  (outcome (main w) = inl (SysExit (ExitNoFiles "" directory)) <->
   forall f, In f items -> is_file f = false).
Proof.
  intros Ha Hi. split; [apply discover_empty_pattern |].
  rewrite <- filter_nil_iff, <- discover_empty_pattern, main_outcome.
  rewrite sys_exit_iff_fatal. unfold fatal_condition. rewrite Ha, Hi.
  destruct (discover "" items) as [ | f fs].
  - tauto.
  - destruct (extracted_rows w _) as [e | [ | r rows]]; split; discriminate.
Qed.

Lemma C9_empty_pattern_witness :
  outcome (main (example_world ["kafkacheck.py"; "exports"; ""]
                   [{| name := "archive"; is_file := false; content := inl OtherError |}]))
  = inl (SysExit (ExitNoFiles "" "exports")).
Proof.
  apply (proj2 (C9_empty_pattern
                  (example_world ["kafkacheck.py"; "exports"; ""]
                     [{| name := "archive"; is_file := false; content := inl OtherError |}])
                  "kafkacheck.py" "exports" []
                  [{| name := "archive"; is_file := false; content := inl OtherError |}]
                  eq_refl eq_refl)).
  intros f [<- | []]. reflexivity.
Defined.

(* ================================================================== *)
(** ** C10: defaults apply to absent keys only *)

(** C10.  A row's [cost_unit] and [cost] are used as they are whenever the
    key is present, falsy or not, and the defaults ["UNKNOWN"] and 0.0 only
    when the key is absent: a present empty [cost_unit] makes the bucket
    [""], which is not the bucket ["UNKNOWN"], and a present cost 0 adds 0.
    An [id] is collected only when it is present and truthy: two rows with
    the empty identifier are reported as unique. *)
Theorem C10_defaults_only_when_absent (d : list (string * pyval)) :
  (forall unit cost pcu icu,
     dict_get d "cost_unit" = Some unit ->
     dict_get d "cost" = Some cost ->
     hashable unit = true ->
     is_number cost = true ->
     breakdown pcu icu [PDict d]
     = inr (dict_set unit (dict_default 0 unit pcu + to_float cost)%float pcu,
            dict_set unit (dict_default 0 unit icu + 1)%nat icu)) /\
  (forall cost pcu icu,
     dict_get d "cost_unit" = None ->
     dict_get d "cost" = Some cost ->
     is_number cost = true ->
     breakdown pcu icu [PDict d]
     = inr (dict_set (PStr "UNKNOWN")
              (dict_default 0 (PStr "UNKNOWN") pcu + to_float cost)%float pcu,
            dict_set (PStr "UNKNOWN")
              (dict_default 0 (PStr "UNKNOWN") icu + 1)%nat icu)) /\
  (forall cost acc,
     dict_get d "cost" = Some cost ->
     is_number cost = true ->
     grand_total acc [PDict d] = inr (acc + to_float cost)%float) /\
  (forall acc,
     dict_get d "cost" = None -> grand_total acc [PDict d] = inr (acc + 0)%float) /\
  (forall id rest,
     dict_get d "id" = Some id ->
     collect_ids (PDict d :: rest)
     = if truthy id
       then match collect_ids rest with inl e => inl e | inr ids => inr (id :: ids) end
       else collect_ids rest) /\
  (forall rest,
     dict_get d "id" = None -> collect_ids (PDict d :: rest) = collect_ids rest) /\
  (truthy (PStr "") = false /\ truthy (PInt 0) = false /\
   hashable (PStr "") = true /\ same_key (PStr "") (PStr "UNKNOWN") = false /\
   is_number (PInt 0) = true /\ to_float (PInt 0) = 0%float) /\
  (output (id_check rows_falsy) = [IdCheckHeader; AllUnique; UniqueTotalItems 2] /\
   grand_total 0 rows_falsy = inr 0%float /\
   breakdown [] [] rows_falsy = inr ([(PStr "", 0%float)], [(PStr "", 2%nat)])).
Proof.
  split; [ | split; [ | split; [ | split; [ | split; [ | split; [ | split]]]]]].
  - intros unit cost pcu icu Hu Hc Hh Hn. simpl. rewrite Hu, Hc, Hh.
    now rewrite (float_add_to_float _ _ Hn).
  - intros cost pcu icu Hu Hc Hn. simpl. rewrite Hu, Hc. simpl.
    now rewrite (float_add_to_float _ _ Hn).
  - intros cost acc Hc Hn. simpl. rewrite Hc.
    now rewrite (float_add_to_float _ _ Hn).
  - intros acc Hc. simpl. now rewrite Hc.
  - intros id rest Hi. simpl. rewrite Hi. simpl.
    destruct (truthy id); [ | reflexivity]. now destruct (collect_ids rest).
  - intros rest Hi. simpl. now rewrite Hi.
  - repeat split.
  - repeat split.
Qed.

Lemma C10_defaults_only_when_absent_witness :
  breakdown [] [] [PDict [("cost_unit", PStr ""); ("cost", PInt 0)]]
  = inr ([(PStr "", 0%float)], [(PStr "", 1%nat)]) /\
  collect_ids [PDict [("id", PStr "")]] = inr [].
Proof.
  split.
  - exact (proj1 (C10_defaults_only_when_absent [("cost_unit", PStr ""); ("cost", PInt 0)])
             (PStr "") (PInt 0) [] [] eq_refl eq_refl eq_refl eq_refl).
  - exact (proj1 (proj2 (proj2 (proj2 (proj2
             (C10_defaults_only_when_absent [("id", PStr "")])))))
             (PStr "") [] eq_refl).
Defined.

(* ================================================================== *)
(** * Further properties *)

(* ================================================================== *)
(** ** The diagnostics of process_file *)

Lemma process_file_output (w : world) (file_path : file) :
  output (process_file w file_path) = diagnostics w file_path.
Proof.
  unfold process_file, process_file_body, diagnostics.
  destruct (content file_path) as [e | kafka_message]; [reflexivity |].
  destruct kafka_message as [ | b | z | f | s | l | d]; try reflexivity.
  - simpl. destruct (str_in "Value" s); reflexivity.
  - simpl. destruct (existsb _ l); reflexivity.
  - simpl. destruct (dict_get d "Value") as [v | ] eqn:Hv; simpl.
    + destruct v as [ | b | z | f | s | l | d']; simpl;
        try (destruct (dict_get d "data") as [rows | ]; simpl;
             [destruct (truthy rows) | ]; reflexivity).
      destruct (json_loads w s) as [e | inner]; simpl.
      * destruct e; reflexivity.
      * destruct inner as [ | b | z | f | s' | l | d']; try reflexivity.
        simpl. destruct (dict_get d' "data") as [rows | ]; simpl;
          [destruct (truthy rows) | ]; reflexivity.
    + destruct (dict_get d "data") as [rows | ]; simpl;
        [destruct (truthy rows) | ]; reflexivity.
Qed.

(** X1.  [process_file] prints nothing exactly when the file is an object
    whose [Value] is a string that parses to an object with a truthy [data];
    in every other case it prints one or two diagnostics.  In particular a
    result that is empty (falsy) is never silent, and a file that holds the
    payload directly is always reported with the "Value not found" warning,
    good rows or not. *)
Theorem X1_process_file_silent (w : world) (file_path : file) :
  (output (process_file w file_path) = [] <->
   exists d s inner,
     content file_path = inr (PDict d) /\
     dict_get d "Value" = Some (PStr s) /\
     json_loads w s = inr (PDict inner) /\
     truthy (data_or_empty (PDict inner)) = true) /\
  (List.length (output (process_file w file_path)) <= 2)%nat /\
  (forall rows,
     outcome (process_file w file_path) = inr rows ->
     truthy rows = false ->
     output (process_file w file_path) <> []) /\
  (forall d,
     content file_path = inr (PDict d) ->
     (forall s, dict_get d "Value" <> Some (PStr s)) ->
     exists more,
       output (process_file w file_path) = WarnNoValue (name file_path) :: more).
Proof.
  rewrite process_file_output, process_file_outcome.
  split; [ | split; [ | split]].
  - unfold diagnostics. split.
    + destruct (content file_path) as [e | [ | b | z | f | s | l | d]];
        try discriminate.
      * destruct (str_in "Value" s); discriminate.
      * destruct (existsb _ l); discriminate.
      * destruct (dict_get d "Value") as [[ | | | | s | | ] | ] eqn:Hv;
          try discriminate.
        destruct (json_loads w s) as [e | [ | | | | | | inner]] eqn:Hl;
          try discriminate; [destruct e; discriminate |].
        destruct (truthy (data_or_empty (PDict inner))) eqn:Ht; [ | discriminate].
        intros _. now exists d, s, inner.
    + intros (d & s & inner & -> & -> & -> & Ht). now rewrite Ht.
  - unfold diagnostics.
    destruct (content file_path) as [e | [ | b | z | f | s | l | d]];
      simpl; try lia.
    + destruct (str_in "Value" s); simpl; lia.
    + destruct (existsb _ l); simpl; lia.
    + destruct (dict_get d "Value") as [[ | | | | s | | ] | ];
        try (destruct (truthy _); simpl; lia).
      destruct (json_loads w s) as [e | [ | | | | | | inner]]; simpl; try lia;
        [destruct e; simpl; lia | destruct (truthy _); simpl; lia].
  - intros rows [= <-]. unfold rows_of, diagnostics.
    destruct (content file_path) as [e | [ | b | z | f | s | l | d]];
      try discriminate.
    + destruct (str_in "Value" s); discriminate.
    + destruct (existsb _ l); discriminate.
    + destruct (dict_get d "Value") as [[ | | | | s | | ] | ]; try discriminate.
      destruct (json_loads w s) as [e | [ | | | | | | inner]];
        try discriminate; [destruct e; discriminate |].
      intros ->. discriminate.
  - intros d Hc Hv. unfold diagnostics. rewrite Hc.
    destruct (dict_get d "Value") as [[ | | | | s | | ] | ]; try (eexists; reflexivity).
    now destruct (Hv s).
Qed.

Lemma M_pair {A} (m : M A) : m = (output m, outcome m).
Proof. now destruct m. Qed.

(** X2.  A document that is valid JSON but no object (a list, a string, a
    number, [null]) makes [process_file] return the empty list after an
    "Error processing" line that names a [TypeError] or an
    [AttributeError]; so does a [Value] that parses to something that is no
    object ([AttributeError]); and an exception of [json.loads] other than
    [JSONDecodeError] is reported by the outer handler, not as an inner
    parse error. *)
Theorem X2_process_file_not_an_object (w : world) (file_path : file) :
  (forall v,
     content file_path = inr v -> is_dict v = false ->
     outcome (process_file w file_path) = inr (PList []) /\
     exists e, (e = TypeError \/ e = AttributeError) /\
       In (ErrProcessing (name file_path) e) (output (process_file w file_path))) /\
  (forall d s v,
     content file_path = inr (PDict d) ->
     dict_get d "Value" = Some (PStr s) ->
     json_loads w s = inr v -> is_dict v = false ->
     process_file w file_path
     = ([ErrProcessing (name file_path) AttributeError], inr (PList []))) /\
  (forall d s e,
     content file_path = inr (PDict d) ->
     dict_get d "Value" = Some (PStr s) ->
     json_loads w s = inl e -> e <> JSONDecodeError ->
     process_file w file_path
     = ([ErrProcessing (name file_path) e], inr (PList []))).
Proof.
  rewrite (M_pair (process_file w file_path)).
  rewrite process_file_output, process_file_outcome.
  unfold diagnostics, rows_of. split; [ | split].
  - intros v -> Hv. destruct v as [ | b | z | f | s | l | d]; try discriminate;
      (split; [reflexivity |]).
    + exists TypeError. split; [now left | now left].
    + exists TypeError. split; [now left | now left].
    + exists TypeError. split; [now left | now left].
    + exists TypeError. split; [now left | now left].
    + destruct (str_in "Value" s).
      * exists TypeError. split; [now left | now left].
      * exists AttributeError. split; [now right | right; now left].
    + destruct (existsb _ l).
      * exists TypeError. split; [now left | now left].
      * exists AttributeError. split; [now right | right; now left].
  - intros d s v -> -> -> Hv. now destruct v.
  - intros d s e -> -> -> He. now destruct e.
Qed.

Lemma X2_process_file_not_an_object_witness :
  outcome (process_file (example_world [] [])
             (regular "topic-message" (inr (PList [PInt 1; PInt 2]))))
  = inr (PList []).
Proof.
  exact (proj1 (proj1 (X2_process_file_not_an_object (example_world [] [])
                         (regular "topic-message" (inr (PList [PInt 1; PInt 2]))))
                  _ eq_refl eq_refl)).
Defined.

(* ================================================================== *)
(** ** Values the aggregation cannot take *)

Lemma py_iter_error (v : pyval) :
  match py_iter v with
  | inl e => e = TypeError /\ iterable v = false
  | inr _ => iterable v = true
  end.
Proof. destruct v; simpl; auto. Qed.

Lemma extracted_rows_not_iterable (w : world) (all_files : list file) (f : file) :
  In f all_files -> iterable (rows_of w f) = false ->
  extracted_rows w all_files = inl TypeError.
Proof.
  intros Hin Hf. induction all_files as [ | g rest IH]; [destruct Hin |].
  simpl. pose proof (py_iter_error (rows_of w g)) as Hg.
  destruct (py_iter (rows_of w g)) as [e | rows]; [now destruct Hg as [-> _] |].
  destruct Hin as [-> | Hin]; [congruence |]. now rewrite (IH Hin).
Qed.

(** X3.  When [process_file] returns, for one of the matched files, a value
    that cannot be iterated ([null], a boolean, a number: a [data] field of
    that type is returned as it is), the run ends on the uncaught
    [TypeError] of [all_rows.extend], with a non-zero status, whatever the
    other files hold. *)
Theorem X3_data_not_iterable (w : world) (script directory file_pattern : string)
    (rest : list string) (items : list file) (file_path : file) (rows : pyval) :
  argv w = script :: directory :: file_pattern :: rest ->
  iterdir w directory = Some items ->
  In file_path (all_files_of file_pattern items) ->
  outcome (process_file w file_path) = inr rows ->
  iterable rows = false ->
  outcome (main w) = inl (Raise TypeError) /\ exit_status (main w) = 1.
Proof.
  intros Ha Hi Hin Hp Hr. rewrite process_file_outcome in Hp. injection Hp as Hp.
  assert (H : outcome (main w) = inl (Raise TypeError)).
  { rewrite main_outcome. unfold run_outcome. rewrite Ha, Hi.
    destruct (discover file_pattern items) as [ | g gs] eqn:Hd.
    - unfold all_files_of in Hin. rewrite Hd in Hin. destruct Hin.
    - rewrite (extracted_rows_not_iterable w _ file_path Hin); [reflexivity |].
      now rewrite Hp. }
  split; [exact H |]. unfold exit_status. now rewrite H.
Qed.

Lemma X3_data_not_iterable_witness :
  outcome (main (example_world ["kafkacheck.py"; "exports"; "topic"]
                   [enveloped; null_data]))
  = inl (Raise TypeError).
Proof.
  refine (proj1 (X3_data_not_iterable
                   (example_world ["kafkacheck.py"; "exports"; "topic"]
                      [enveloped; null_data])
                   "kafkacheck.py" "exports" "topic" [] [enveloped; null_data]
                   null_data PNone eq_refl eq_refl _ eq_refl eq_refl)).
  right. now left.
Defined.

Lemma bind_ret {A B} (a : A) (k : A -> M B) : bind (ret a) k = k a.
Proof. unfold bind, ret. now destruct (k a). Qed.

Lemma report_split (w : world) (all_rows : list pyval) :
  report w all_rows = (id_check all_rows ;;; report_tail w all_rows).
Proof. reflexivity. Qed.

Lemma collect_ids_not_dict (all_rows : list pyval) :
  forallb is_dict all_rows = false -> collect_ids all_rows = inl AttributeError.
Proof.
  induction all_rows as [ | row rest IH]; simpl; [discriminate |].
  destruct row as [ | | | | | | d]; try reflexivity. simpl. intros H.
  rewrite (IH H). now destruct (truthy _).
Qed.

Lemma py_iter_rows_not_dict (v : pyval) (rows : list pyval) :
  py_iter v = inr rows ->
  (forall l, v <> PList l) ->
  Forall (fun row => is_dict row = false) rows.
Proof.
  destruct v as [ | | | | s | l | d]; simpl; try discriminate; intros [= <-] Hl.
  - apply Forall_forall. intros r Hr. apply in_map_iff in Hr as (c & <- & _).
    reflexivity.
  - now destruct (Hl l).
  - apply Forall_forall. intros r Hr. apply in_map_iff in Hr as (kv & <- & _).
    reflexivity.
Qed.

(** X4.  When some extracted row is no JSON object, the report stops at its
    first statement (line 93) on an uncaught [AttributeError], before it
    prints anything; the run ends with that exception.  This is what
    happens to a [data] value that is a string or an object instead of a
    list: its characters or keys become the rows, none of which is an
    object. *)
Theorem X4_row_not_an_object (w : world) (all_rows : list pyval) :
  forallb is_dict all_rows = false ->
  report w all_rows = ([], inl (Raise AttributeError)) /\
  (forall script directory file_pattern rest items,
     argv w = script :: directory :: file_pattern :: rest ->
     iterdir w directory = Some items ->
     extracted_rows w (all_files_of file_pattern items) = inr all_rows ->
     outcome (main w) = inl (Raise AttributeError)) /\
  (forall v rows,
     py_iter v = inr rows -> (forall l, v <> PList l) ->
     Forall (fun row => is_dict row = false) rows).
Proof.
  intros Hd. split; [ | split].
  - unfold report, id_check. now rewrite (collect_ids_not_dict _ Hd).
  - intros script directory file_pattern rest items Ha Hi He.
    rewrite main_outcome. unfold run_outcome, all_files_of in *. rewrite Ha, Hi.
    destruct (discover file_pattern items) as [ | g gs].
    + simpl in He. injection He as <-. discriminate.
    + rewrite He. destruct all_rows as [ | r rows]; [discriminate |].
      unfold report_check. now rewrite (collect_ids_not_dict _ Hd).
  - exact py_iter_rows_not_dict.
Qed.

Lemma X4_row_not_an_object_witness :
  report (example_world [] []) [PStr "a"; PStr "b"] = ([], inl (Raise AttributeError)).
Proof.
  exact (proj1 (X4_row_not_an_object (example_world [] []) [PStr "a"; PStr "b"] eq_refl)).
Defined.

Lemma id_check_run (all_rows : list pyval) :
  forallb is_dict all_rows = true ->
  forallb hashable (present_ids all_rows) = true ->
  id_check all_rows = (output (id_check all_rows), inr tt).
Proof.
  intros Hd Hh. rewrite (M_pair (id_check all_rows)) at 1. f_equal.
  rewrite id_check_outcome, (collect_ids_spec _ Hd), py_set_spec. now rewrite Hh.
Qed.

(** X5.  When the rows are JSON objects and some collected identifier
    cannot be hashed (a list or an object), the report prints the header of
    the uniqueness check and stops on the uncaught [TypeError] of
    [set(all_ids)]. *)
Theorem X5_id_not_hashable (w : world) (all_rows : list pyval) :
  forallb is_dict all_rows = true ->
  forallb hashable (present_ids all_rows) = false ->
  report w all_rows = ([IdCheckHeader], inl (Raise TypeError)).
Proof.
  intros Hd Hh. unfold report, id_check.
  rewrite (collect_ids_spec _ Hd). unfold lift at 1. rewrite bind_ret.
  rewrite py_set_spec, Hh. reflexivity.
Qed.

Lemma X5_id_not_hashable_witness :
  report (example_world [] []) [PDict [("id", PList [PInt 1])]]
  = ([IdCheckHeader], inl (Raise TypeError)).
Proof.
  exact (X5_id_not_hashable (example_world [] []) [PDict [("id", PList [PInt 1])]]
           eq_refl eq_refl).
Defined.

Lemma float_of_int_error (z : Z) (e : exn) :
  float_of_int z = inl e -> e = OverflowError.
Proof.
  unfold float_of_int.
  destruct (SpecFloat.binary_normalize prec emax z 0 false); congruence.
Qed.

Lemma float_add_error (acc : float) (v : pyval) :
  match float_add acc v with
  | inl e => is_number v = false /\ (e = TypeError \/ e = OverflowError)
  | inr _ => is_number v = true
  end.
Proof.
  destruct v; simpl; auto.
  destruct (float_of_int z) as [e | f] eqn:E; [ | reflexivity].
  split; [reflexivity | right]. now apply float_of_int_error in E.
Qed.

Lemma grand_total_cost_ok (all_rows : list pyval) (acc : float) :
  forallb is_dict all_rows = true ->
  match grand_total acc all_rows with
  | inl e => forallb cost_ok all_rows = false /\ (e = TypeError \/ e = OverflowError)
  | inr _ => forallb cost_ok all_rows = true
  end.
Proof.
  revert acc. induction all_rows as [ | row rest IH]; intros acc; simpl;
    [reflexivity |].
  intros H. apply andb_prop in H as [Hr Hrest].
  destruct row as [ | | | | | | d]; try discriminate. simpl.
  destruct (dict_get d "cost") as [c | ].
  - pose proof (float_add_error acc c) as Hc.
    destruct (float_add acc c) as [e | t].
    + destruct Hc as [-> He]. now split.
    + rewrite Hc. simpl. now apply IH.
  - simpl. now apply IH.
Qed.

(** X6.  Over rows that are JSON objects with hashable identifiers, the
    grand total is computed exactly when every [cost] that is present is a
    float, a boolean or an int a float can hold; a cost of another type (a
    string such as ["12.5"], [null], a list) or an int beyond the range of
    floats stops the report, after the uniqueness check has been printed
    and before any total is, on an uncaught [TypeError] or
    [OverflowError]. *)
Theorem X6_cost_not_a_number (w : world) (all_rows : list pyval) :
  forallb is_dict all_rows = true ->
  forallb hashable (present_ids all_rows) = true ->
  ((exists t, grand_total 0%float all_rows = inr t) <->
   forallb cost_ok all_rows = true) /\
  (forallb cost_ok all_rows = false ->
   exists e, (e = TypeError \/ e = OverflowError) /\
     report w all_rows = (output (id_check all_rows), inl (Raise e))).
Proof.
  intros Hd Hh. pose proof (grand_total_cost_ok all_rows 0%float Hd) as Hg.
  split.
  - destruct (grand_total 0 all_rows) as [e | t].
    + destruct Hg as [Hg _]. split; [intros [t Ht]; discriminate | congruence].
    + split; [now intros _ | eauto].
  - intros Hc. destruct (grand_total 0 all_rows) as [e | t] eqn:E; [ | congruence].
    destruct Hg as [_ He]. exists e. split; [exact He |].
    rewrite report_split, (id_check_run _ Hd Hh). unfold report_tail.
    rewrite E. cbn [lift raise bind app]. now rewrite app_nil_r.
Qed.

Lemma X6_cost_not_a_number_witness :
  exists e,
    report (example_world [] []) [PDict [("id", PStr "a"); ("cost", PStr "12.5")]]
    = ([IdCheckHeader; AllUnique; UniqueTotalItems 1], inl (Raise e)).
Proof.
  destruct (proj2 (X6_cost_not_a_number (example_world [] [])
                     [PDict [("id", PStr "a"); ("cost", PStr "12.5")]]
                     eq_refl eq_refl) eq_refl) as (e & _ & H).
  exists e. exact H.
Defined.

Lemma set_locale_output (w : world) : output (set_locale w) = locale_warnings w.
Proof.
  unfold set_locale, locale_warnings.
  destruct (setlocale w "de_DE.UTF-8"); [reflexivity |].
  destruct (setlocale w "en_US.UTF-8"); [reflexivity |].
  now destruct (setlocale w "").
Qed.

Lemma report_output (w : world) (all_rows : list pyval) (t : float) :
  forallb is_dict all_rows = true ->
  forallb hashable (present_ids all_rows) = true ->
  grand_total 0%float all_rows = inr t ->
  output (report w all_rows)
  = output (id_check all_rows) ++ locale_warnings w
    ++ (if locale_available w
        then GrandTotalHeader :: TotalCost t :: output (breakdown_report w all_rows)
        else []).
Proof.
  intros Hd Hh Ht. rewrite report_split, (id_check_run _ Hd Hh).
  rewrite output_bind. cbn [output outcome fst snd]. f_equal.
  unfold report_tail. rewrite Ht, output_bind, output_lift, outcome_lift.
  cbn [app]. rewrite output_bind, set_locale_output, set_locale_outcome. f_equal.
  destruct (locale_available w); [ | reflexivity].
  now repeat (rewrite output_bind; cbn [print output outcome fst snd app]).
Qed.

(** X7.  The locale is set after the grand total is computed and before it
    is printed: no warning when the German locale is there, one warning
    when the US or the default locale is taken instead; and when none of
    the three can be set, the report over rows that are otherwise fine
    stops on the uncaught [locale.Error] after the second warning, without
    printing the total it has computed. *)
Theorem X7_locale_fallback (w : world) (all_rows : list pyval) :
  forallb is_dict all_rows = true ->
  forallb hashable (present_ids all_rows) = true ->
  forallb cost_ok all_rows = true ->
  (locale_available w = false ->
   report w all_rows
   = (output (id_check all_rows) ++ [WarnLocaleDefault], inl (Raise LocaleError))) /\
  (locale_available w = true ->
   exists t more,
     grand_total 0%float all_rows = inr t /\
     output (report w all_rows)
     = output (id_check all_rows) ++ locale_warnings w
       ++ GrandTotalHeader :: TotalCost t :: more).
Proof.
  intros Hd Hh Hc.
  pose proof (grand_total_cost_ok all_rows 0%float Hd) as Hg.
  destruct (grand_total 0 all_rows) as [e | t] eqn:Ht; [destruct Hg; congruence |].
  split.
  - intros H. rewrite report_split, (id_check_run _ Hd Hh). unfold report_tail.
    rewrite Ht. unfold locale_available, set_locale in *.
    apply orb_false_iff in H as [H H3]. apply orb_false_iff in H as [H1 H2].
    rewrite H1, H2, H3. reflexivity.
  - intros H. exists t, (output (breakdown_report w all_rows)). split; [reflexivity |].
    now rewrite (report_output w _ t Hd Hh Ht), H.
Qed.

Lemma X7_locale_fallback_witness :
  report (Build_world [] (fun _ => None) example_loads example_float (fun _ => false))
    [PDict [("id", PStr "a"); ("cost", PInt 3)]]
  = ([IdCheckHeader; AllUnique; UniqueTotalItems 1; WarnLocaleDefault],
     inl (Raise LocaleError)).
Proof.
  exact (proj1 (X7_locale_fallback
                  (Build_world [] (fun _ => None) example_loads example_float
                     (fun _ => false))
                  [PDict [("id", PStr "a"); ("cost", PInt 3)]]
                  eq_refl eq_refl eq_refl) eq_refl).
Defined.

(* ================================================================== *)
(** ** The breakdown *)

Lemma row_get_cost_unit (row : pyval) :
  is_dict row = true -> py_get row "cost_unit" (PStr "UNKNOWN") = inr (unit_of row).
Proof. destruct row; try discriminate. reflexivity. Qed.

Lemma row_add_cost (row : pyval) (acc : float) :
  cost_ok row = true ->
  (cost <~ py_get row "cost" (PFloat 0) ;; float_add acc cost)
  = inr (acc + cost_of row)%float.
Proof.
  destruct row as [ | | | | | | d]; try discriminate. simpl.
  destruct (dict_get d "cost") as [c | ]; [apply float_add_to_float | reflexivity].
Qed.

(** The loop of lines 139-143 over rows whose costs are numbers: it stops
    at the first cost unit that cannot be hashed, and builds the two groups
    otherwise. *)
Lemma breakdown_rows (all_rows : list pyval) (pcu : list (pyval * float))
    (icu : list (pyval * nat)) :
  forallb is_dict all_rows = true ->
  forallb cost_ok all_rows = true ->
  breakdown pcu icu all_rows
  = if forallb unit_ok all_rows
    then inr (group unit_of (fun t row => (t + cost_of row)%float) 0%float pcu all_rows,
              group unit_of (fun n _ => (n + 1)%nat) 0%nat icu all_rows)
    else inl TypeError.
Proof.
  revert pcu icu. induction all_rows as [ | row rest IH]; intros pcu icu; simpl;
    [reflexivity |].
  intros Hd Hc. apply andb_prop in Hd as [Hd Hdr]. apply andb_prop in Hc as [Hc Hcr].
  rewrite (row_get_cost_unit _ Hd).
  pose proof (row_add_cost row (dict_default 0%float (unit_of row) pcu) Hc) as Ha.
  destruct (py_get row "cost" (PFloat 0)) as [e | cost]; [discriminate |].
  unfold unit_ok at 1. destruct (hashable (unit_of row)); [ | reflexivity].
  rewrite Ha. cbn [andb]. now apply IH.
Qed.

Lemma grand_total_rows (all_rows : list pyval) (acc : float) :
  forallb cost_ok all_rows = true ->
  grand_total acc all_rows = inr (fold_left PrimFloat.add (map cost_of all_rows) acc).
Proof.
  revert acc. induction all_rows as [ | row rest IH]; intros acc; simpl;
    [reflexivity |].
  intros H. apply andb_prop in H as [Hr Hrest].
  pose proof (row_add_cost row acc Hr) as Ha.
  destruct (py_get row "cost" (PFloat 0)) as [e | cost]; [discriminate |].
  rewrite Ha. now apply IH.
Qed.

(** X8.  A [cost_unit] that cannot be hashed (a list or an object) stops
    the report at line 142 on an uncaught [TypeError]: after the identifier
    check, the locale and the grand total have been printed, and before the
    header of the breakdown. *)
Theorem X8_cost_unit_not_hashable (w : world) (all_rows : list pyval) :
  forallb is_dict all_rows = true ->
  forallb hashable (present_ids all_rows) = true ->
  forallb cost_ok all_rows = true ->
  locale_available w = true ->
  forallb unit_ok all_rows = false ->
  report w all_rows
  = (output (id_check all_rows) ++ locale_warnings w
       ++ [GrandTotalHeader; TotalCost (float_sum (map cost_of all_rows))],
     inl (Raise TypeError)).
Proof.
  intros Hd Hh Hc Hl Hu. rewrite (M_pair (report w all_rows)). f_equal.
  - rewrite (report_output w _ _ Hd Hh (grand_total_rows _ _ Hc)), Hl.
    unfold breakdown_report. now rewrite (breakdown_rows _ _ _ Hd Hc), Hu.
  - rewrite report_outcome. unfold report_check.
    rewrite (collect_ids_spec _ Hd), py_set_spec, Hh.
    rewrite (grand_total_rows _ _ Hc), Hl.
    now rewrite (breakdown_rows _ _ _ Hd Hc), Hu.
Qed.

Lemma X8_cost_unit_not_hashable_witness :
  report (example_world [] []) [row (PStr "a") (PInt 2) (PList [])]
  = ([IdCheckHeader; AllUnique; UniqueTotalItems 1; WarnLocaleUS;
      GrandTotalHeader; TotalCost 2%float],
     inl (Raise TypeError)).
Proof.
  exact (X8_cost_unit_not_hashable (example_world [] [])
           [row (PStr "a") (PInt 2) (PList [])] eq_refl eq_refl eq_refl eq_refl eq_refl).
Defined.

Lemma sort_key_error (w : world) (unit_key : pyval) (e : exn) :
  sort_key w unit_key = inl e <-> e = OverflowError /\ too_large unit_key = true.
Proof.
  unfold sort_key, too_large. destruct unit_key as [ | b | z | f | s | l | d]; simpl;
    try (split; [discriminate | intros [_ H]; discriminate]).
  - destruct (float_of_int z) as [e' | f] eqn:E.
    + apply float_of_int_error in E as ->. split; [now intros [= <-] | now intros [-> _]].
    + split; [discriminate | intros [_ H]; discriminate].
  - destruct (float_of_str w s); split; try discriminate; intros [_ H]; discriminate.
Qed.

Lemma sort_keys_error (w : world) (units : list pyval) :
  match sort_keys w units with
  | inl e => e = OverflowError /\ existsb too_large units = true
  | inr _ => existsb too_large units = false
  end.
Proof.
  induction units as [ | unit rest IH]; simpl; [reflexivity |].
  destruct (sort_key w unit) as [e | k] eqn:E.
  - apply sort_key_error in E as [-> ->]. now split.
  - assert (Hu : too_large unit = false).
    { destruct (too_large unit) eqn:T; [ | reflexivity].
      assert (H : sort_key w unit = inl OverflowError) by now apply sort_key_error.
      congruence. }
    rewrite Hu. simpl. now destruct (sort_keys w rest).
Qed.

Lemma print_units_output (pcu : list (pyval * float)) (icu : list (pyval * nat))
    (units : list pyval) :
  output (print_units pcu icu units)
  = flat_map (fun u => [CostUnit u (dict_default 0%nat u icu);
                        UnitTotalCost (dict_default 0%float u pcu)]) units.
Proof.
  induction units as [ | unit rest IH]; cbn [print_units]; [reflexivity |].
  repeat (rewrite output_bind; cbn [print output outcome fst snd app]).
  now rewrite IH.
Qed.


Lemma units_hashable (all_rows : list pyval) :
  forallb unit_ok all_rows = true ->
  Forall (fun row => hashable (unit_of row) = true) all_rows /\
  forallb hashable (map unit_of all_rows) = true.
Proof.
  intros H. rewrite forallb_forall in H. split.
  - apply Forall_forall. exact H.
  - apply forallb_forall. intros u Hu. apply in_map_iff in Hu as (r & <- & Hr).
    now apply H.
Qed.

(** What lines 137-160 print and return over rows that are objects with
    numeric costs and hashable cost units. *)
Lemma breakdown_report_rows (w : world) (all_rows : list pyval) :
  forallb is_dict all_rows = true ->
  forallb cost_ok all_rows = true ->
  forallb unit_ok all_rows = true ->
  breakdown_report w all_rows
  = match sorted_units w (first_seen [] (map unit_of all_rows)) with
    | inl e => ([BreakdownHeader], inl (Raise e))
    | inr units => (BreakdownHeader :: flat_map (unit_lines all_rows) units, inr tt)
    end.
Proof.
  intros Hd Hc Hu. unfold breakdown_report.
  rewrite (breakdown_rows _ _ _ Hd Hc), Hu. unfold lift at 1. rewrite bind_ret.
  cbn [fst snd]. rewrite group_keys. cbn [map app].
  destruct (sorted_units w (first_seen [] (map unit_of all_rows))) as [e | units];
    [reflexivity |].
  rewrite (M_pair (_ ;;; _)). f_equal.
  - repeat (rewrite output_bind; cbn [print output outcome fst snd app lift ret]).
    f_equal. rewrite print_units_output. apply flat_map_ext. intros u.
    destruct (units_hashable _ Hu) as [Hf _].
    unfold unit_lines, rows_of_unit.
    rewrite !group_value by exact Hf. rewrite fold_succ, (fold_left_add_map cost_of).
    reflexivity.
  - repeat (rewrite outcome_bind; cbn [print output outcome fst snd lift ret]).
    apply print_units_outcome.
Qed.

Lemma report_rows (w : world) (all_rows : list pyval) :
  forallb is_dict all_rows = true ->
  forallb hashable (present_ids all_rows) = true ->
  forallb cost_ok all_rows = true ->
  locale_available w = true ->
  report w all_rows
  = (output (id_check all_rows) ++ locale_warnings w
       ++ GrandTotalHeader :: TotalCost (float_sum (map cost_of all_rows))
            :: output (breakdown_report w all_rows),
     outcome (breakdown_report w all_rows)).
Proof.
  intros Hd Hh Hc Hl. rewrite (M_pair (report w all_rows)). f_equal.
  - now rewrite (report_output w _ _ Hd Hh (grand_total_rows _ _ Hc)), Hl.
  - rewrite report_split, (id_check_run _ Hd Hh), outcome_bind.
    cbn [outcome snd]. unfold report_tail.
    rewrite (grand_total_rows _ _ Hc), outcome_bind, outcome_lift.
    rewrite outcome_bind, set_locale_outcome, Hl.
    now repeat (rewrite outcome_bind; cbn [print outcome snd]).
Qed.

(** X9.  The sort key of a cost unit is never an error but for an int no
    float can hold: [float] raises [OverflowError] for it, which [sort_key]
    does not catch.  Over rows whose other fields are fine the report fails
    exactly when such an int is among the cost units, and it then stops at
    line 153 on that error, after the header of the breakdown and before
    any cost unit is printed. *)
Theorem X9_sort_key_overflow (w : world) (all_rows : list pyval) :
  forallb is_dict all_rows = true ->
  forallb hashable (present_ids all_rows) = true ->
  forallb cost_ok all_rows = true ->
  locale_available w = true ->
  forallb unit_ok all_rows = true ->
  (forall unit_key e,
     sort_key w unit_key = inl e <-> e = OverflowError /\ too_large unit_key = true) /\
  (outcome (report w all_rows) = inr tt <->
   existsb too_large (cost_units all_rows) = false) /\
  (existsb too_large (cost_units all_rows) = true ->
   report w all_rows
   = (output (id_check all_rows) ++ locale_warnings w
        ++ [GrandTotalHeader; TotalCost (float_sum (map cost_of all_rows));
            BreakdownHeader],
      inl (Raise OverflowError))).
Proof.
  intros Hd Hh Hc Hl Hu. split; [intros u e; apply sort_key_error |].
  rewrite (report_rows w _ Hd Hh Hc Hl), (breakdown_report_rows _ _ Hd Hc Hu).
  fold (cost_units all_rows).
  unfold sorted_units. pose proof (sort_keys_error w (cost_units all_rows)) as Hk.
  destruct (sort_keys w (cost_units all_rows)) as [e | ks].
  - destruct Hk as [-> Hk]. rewrite Hk. cbn [outcome snd]. split.
    + split; discriminate.
    + reflexivity.
  - rewrite Hk. cbn [outcome snd]. split; [now split | discriminate].
Qed.

Lemma X9_sort_key_overflow_witness :
  report (example_world [] []) [row (PStr "a") (PInt 2) (PInt (2 ^ 1024))]
  = ([IdCheckHeader; AllUnique; UniqueTotalItems 1; WarnLocaleUS;
      GrandTotalHeader; TotalCost 2%float; BreakdownHeader],
     inl (Raise OverflowError)).
Proof.
  exact (proj2 (proj2 (X9_sort_key_overflow (example_world [] [])
                         [row (PStr "a") (PInt 2) (PInt (2 ^ 1024))]
                         eq_refl eq_refl eq_refl eq_refl eq_refl)) eq_refl).
Defined.




(* ================================================================== *)
(** ** The lines of the files *)

Lemma collect_rows_output (w : world) (all_files : list file)
    (all_rows rows : list pyval) :
  extracted_rows w all_files = inr rows ->
  output (collect_rows w all_rows all_files) = flat_map (file_lines w) all_files.
Proof.
  revert all_rows rows. induction all_files as [ | f rest IH]; intros all_rows rows;
    cbn [collect_rows extracted_rows flat_map]; [reflexivity |].
  destruct (py_iter (rows_of w f)) as [e | extended] eqn:Hf; [discriminate |].
  destruct (extracted_rows w rest) as [e | more] eqn:Hr; [discriminate |]. intros _.
  unfold file_lines at 1. rewrite Hf.
  rewrite output_bind. cbn [print output outcome fst snd app]. f_equal.
  rewrite output_bind, process_file_output, process_file_outcome, <- app_assoc.
  f_equal. rewrite output_bind, output_lift, outcome_lift, Hf. cbn [app].
  rewrite output_bind. cbn [print output outcome fst snd app]. f_equal.
  now apply (IH _ more).
Qed.

Lemma Forall_output_bind {A B} (P : out -> Prop) (m : M A) (k : A -> M B) :
  Forall P (output m) -> (forall a, Forall P (output (k a))) ->
  Forall P (output (bind m k)).
Proof.
  intros Hm Hk. rewrite output_bind. apply Forall_app. split; [exact Hm |].
  destruct (outcome m); [constructor | apply Hk].
Qed.

Lemma print_duplicates_events (items : list (pyval * nat)) (i n : nat) :
  Forall (fun e => file_phase_event e = false) (output (print_duplicates i n items)).
Proof.
  revert i. induction items as [ | [id c] rest IH]; intros i; cbn [print_duplicates].
  - constructor.
  - destruct (5 <=? i)%nat; [now repeat constructor |].
    apply Forall_output_bind; [now repeat constructor | intros _; apply IH].
Qed.

Lemma print_units_events (pcu : list (pyval * float)) (icu : list (pyval * nat))
    (units : list pyval) :
  Forall (fun e => file_phase_event e = false) (output (print_units pcu icu units)).
Proof.
  rewrite print_units_output. induction units as [ | u rest IH]; simpl;
    now repeat constructor.
Qed.

(** The report prints none of the lines of the file phase. *)
Lemma report_events (w : world) (all_rows : list pyval) :
  Forall (fun e => file_phase_event e = false) (output (report w all_rows)).
Proof.
  unfold report. apply Forall_output_bind.
  - unfold id_check. apply Forall_output_bind; [rewrite output_lift; constructor |].
    intros all_ids. apply Forall_output_bind; [now repeat constructor | intros _].
    apply Forall_output_bind; [rewrite output_lift; constructor | intros ids_set].
    destruct (negb _).
    + repeat (apply Forall_output_bind; [now repeat constructor | intros _]).
      apply print_duplicates_events.
    + now repeat constructor.
  - intros _. apply Forall_output_bind; [rewrite output_lift; constructor | intros t].
    apply Forall_output_bind.
    { rewrite set_locale_output. unfold locale_warnings.
      destruct (setlocale w "de_DE.UTF-8"); [constructor |].
      destruct (setlocale w "en_US.UTF-8"); now repeat constructor. }
    intros _.
    repeat (apply Forall_output_bind; [now repeat constructor | intros _]).
    apply Forall_output_bind; [rewrite output_lift; constructor | intros dicts].
    apply Forall_output_bind; [now repeat constructor | intros _].
    apply Forall_output_bind; [rewrite output_lift; constructor | intros units].
    apply print_units_events.
Qed.

Lemma diagnostics_events (w : world) (file_path : file) :
  processing_names (diagnostics w file_path) = [] /\
  found_items (diagnostics w file_path) = [] /\
  total_items (diagnostics w file_path) = [].
Proof.
  unfold diagnostics.
  destruct (content file_path) as [e | [ | b | z | f | s | l | d]];
    try (repeat split; reflexivity).
  - destruct (str_in "Value" s); repeat split; reflexivity.
  - destruct (existsb _ l); repeat split; reflexivity.
  - destruct (dict_get d "Value") as [[ | b | z | f | s | l | d'] | ];
      try (destruct (truthy _); repeat split; reflexivity).
    destruct (json_loads w s) as [[ ] | [ | b | z | f | s' | l | d']];
      try (repeat split; reflexivity).
    destruct (truthy _); repeat split; reflexivity.
Qed.

Lemma no_file_phase_event (o : list out) :
  Forall (fun e => file_phase_event e = false) o ->
  processing_names o = [] /\ found_items o = [] /\ total_items o = [].
Proof.
  induction 1 as [ | e o He _ (IH1 & IH2 & IH3)]; [repeat split |].
  unfold processing_names, found_items, total_items in *. cbn [flat_map].
  rewrite IH1, IH2, IH3. destruct e; try discriminate; repeat split.
Qed.

Lemma file_lines_counts (w : world) (all_files : list file) (all_rows : list pyval) :
  extracted_rows w all_files = inr all_rows ->
  processing_names (flat_map (file_lines w) all_files) = map name all_files /\
  list_sum (found_items (flat_map (file_lines w) all_files)) = List.length all_rows /\
  List.length (found_items (flat_map (file_lines w) all_files)) = List.length all_files /\
  total_items (flat_map (file_lines w) all_files) = [].
Proof.
  revert all_rows. induction all_files as [ | f rest IH]; intros all_rows;
    cbn [extracted_rows flat_map].
  - intros [= <-]. repeat split.
  - destruct (py_iter (rows_of w f)) as [e | rows] eqn:Hf; [discriminate |].
    destruct (extracted_rows w rest) as [e | more]; [discriminate |].
    intros [= <-]. destruct (IH more eq_refl) as (IH1 & IH2 & IH3 & IH4).
    destruct (diagnostics_events w f) as (D1 & D2 & D3).
    unfold processing_names, found_items, total_items in *.
    unfold file_lines at 1 3 5 7. rewrite Hf.
    cbn [flat_map app]. rewrite !flat_map_app, D1, D2, D3, IH1, IH4.
    cbn [flat_map app map List.length].
    split; [reflexivity | split; [ | split; [now rewrite IH3 | reflexivity]]].
    rewrite length_app, <- IH2. reflexivity.
Qed.

(** X11.  The lines of a run that reaches the report: the search line, the
    number of files and their names in processing order, then for each
    file its "Processing" line, its diagnostics and its "Found n" line,
    then the total and the report.  There is one "Processing" line and one
    "Found n" line for each file, in the sorted order of the names; the
    numbers of the "Found n" lines add up to the one total that is
    printed, which is the number of rows the report is made over. *)
Theorem X11_file_phase (w : world) (script directory file_pattern : string)
    (rest : list string) (items : list file) (all_rows : list pyval) :
  argv w = script :: directory :: file_pattern :: rest ->
  iterdir w directory = Some items ->
  discover file_pattern items <> [] ->
  extracted_rows w (all_files_of file_pattern items) = inr all_rows ->
  output (main w)
  = Searching file_pattern directory
      :: FoundFiles (List.length (discover file_pattern items))
      :: map (fun f => FileItem (name f)) (all_files_of file_pattern items)
      ++ flat_map (file_lines w) (all_files_of file_pattern items)
      ++ TotalItems (List.length all_rows)
      :: match all_rows with [] => [] | _ => output (report w all_rows) end /\
  processing_names (output (main w)) = map name (all_files_of file_pattern items) /\
  List.length (found_items (output (main w)))
  = List.length (discover file_pattern items) /\
  list_sum (found_items (output (main w))) = List.length all_rows /\
  total_items (output (main w)) = [List.length all_rows].
Proof.
  intros Ha Hi Hd He.
  assert (Ho : output (main w)
    = Searching file_pattern directory
      :: FoundFiles (List.length (discover file_pattern items))
      :: map (fun f => FileItem (name f)) (all_files_of file_pattern items)
      ++ flat_map (file_lines w) (all_files_of file_pattern items)
      ++ TotalItems (List.length all_rows)
      :: match all_rows with [] => [] | _ => output (report w all_rows) end).
  { unfold main. rewrite Ha, Hi.
    rewrite output_bind. cbn [print output outcome fst snd app]. f_equal.
    destruct (discover file_pattern items) as [ | g gs] eqn:Hg; [now destruct Hd |].
    rewrite <- Hg. fold (all_files_of file_pattern items).
    rewrite output_bind. cbn [print output outcome fst snd app]. f_equal.
    rewrite output_bind, print_files_output, print_files_outcome. f_equal.
    rewrite output_bind, (collect_rows_output _ _ _ _ He), collect_rows_outcome, He.
    f_equal. cbn [app].
    rewrite output_bind. cbn [print output outcome fst snd app]. f_equal.
    now destruct all_rows. }
  split; [exact Ho |].
  destruct (file_lines_counts _ _ _ He) as (F1 & F2 & F3 & F4).
  assert (Hr : Forall (fun e => file_phase_event e = false)
                 match all_rows with [] => [] | _ => output (report w all_rows) end).
  { destruct all_rows; [constructor | apply report_events]. }
  apply no_file_phase_event in Hr as (R1 & R2 & R3).
  assert (Hn : forall l : list file,
             processing_names (map (fun f => FileItem (name f)) l) = [] /\
             found_items (map (fun f => FileItem (name f)) l) = [] /\
             total_items (map (fun f => FileItem (name f)) l) = []).
  { induction l as [ | f l IH]; [repeat split | exact IH]. }
  destruct (Hn (all_files_of file_pattern items)) as (N1 & N2 & N3).
  rewrite Ho. unfold processing_names, found_items, total_items in *.
  cbn [flat_map app]. rewrite !flat_map_app. cbn [flat_map app].
  rewrite N1, N2, N3, F1, F4, R1, R2, R3, !app_nil_r. cbn [app].
  repeat split; try assumption.
  rewrite F3. unfold all_files_of. apply sorted_length.
Qed.

Lemma X11_file_phase_witness :
  processing_names (output (main (example_world ["kafkacheck.py"; "exports"; "topic"]
                                    [enveloped; broken])))
  = map name (all_files_of "topic" [enveloped; broken]) /\
  total_items (output (main (example_world ["kafkacheck.py"; "exports"; "topic"]
                               [enveloped; broken])))
  = [1%nat].
Proof.
  pose proof (X11_file_phase
                (example_world ["kafkacheck.py"; "exports"; "topic"] [enveloped; broken])
                "kafkacheck.py" "exports" "topic" [] [enveloped; broken]
                [PDict [("id", PStr "a"); ("cost", PInt 2)]]
                eq_refl eq_refl) as H.
  assert (Hd : discover "topic" [enveloped; broken] <> []) by discriminate.
  destruct (H Hd eq_refl) as (_ & Hp & _ & _ & Ht). split; [exact Hp | exact Ht].
Defined.

(* ================================================================== *)
(** ** Duplicates *)

Lemma nodup_length_le {A} (dec : forall a b : A, {a = b} + {a <> b}) (l : list A) :
  (List.length (nodup dec l) <= List.length l)%nat.
Proof.
  induction l as [ | x l IH]; simpl; [lia |].
  destruct (in_dec dec x l); simpl; lia.
Qed.

Lemma nodup_length_iff {A} (dec : forall a b : A, {a = b} + {a <> b}) (l : list A) :
  List.length (nodup dec l) = List.length l <-> NoDup l.
Proof.
  split; [ | intros H; now rewrite nodup_fixed_point].
  induction l as [ | x l IH]; simpl; [constructor |].
  pose proof (nodup_length_le dec l) as Hle.
  destruct (in_dec dec x l) as [Hin | Hin]; simpl; [lia |].
  intros H. constructor; [exact Hin | apply IH; lia].
Qed.

Lemma distinct_count_iff (l : list pyval) :
  List.length l = distinct_count l <-> NoDup (map key_of l).
Proof.
  unfold distinct_count. rewrite <- (nodup_length_iff okey_eq_dec), length_map.
  split; congruence.
Qed.

Lemma dup_found_iff (all_rows : list pyval) :
  forallb is_dict all_rows = true ->
  forallb hashable (present_ids all_rows) = true ->
  In DupFound (output (id_check all_rows)) <->
  List.length (present_ids all_rows) <> distinct_count (present_ids all_rows).
Proof.
  intros Hd Hh. rewrite (id_check_output _ Hd Hh).
  destruct (Nat.eqb_spec (List.length (present_ids all_rows))
              (distinct_count (present_ids all_rows))) as [E | E].
  - split; [ | tauto]. intros [H | [H | [H | []]]]; discriminate.
  - split; [tauto |]. intros _. right. now left.
Qed.

Lemma present_ids_app (a b : list pyval) :
  present_ids (a ++ b) = present_ids a ++ present_ids b.
Proof. apply flat_map_app. Qed.

Lemma present_ids_single (row : pyval) :
  present_ids [row]
  = match id_of row with
    | Some id => if truthy id then [id] else []
    | None => []
    end.
Proof. unfold present_ids. simpl. now rewrite app_nil_r. Qed.

Lemma present_ids_row (row id : pyval) :
  id_of row = Some id -> truthy id = true -> present_ids [row] = [id].
Proof. intros Hi Ht. now rewrite present_ids_single, Hi, Ht. Qed.

(** X12.  What the check calls a duplicate: the "duplicate IDs" line is
    printed exactly when two rows at different places carry truthy
    identifiers that are the same dict key, wherever the two rows are, so
    also when they come from different files; identifiers are compared as
    keys are, not as they are written. *)
Theorem X12_duplicate_meaning (all_rows : list pyval) :
  forallb is_dict all_rows = true ->
  forallb hashable (present_ids all_rows) = true ->
  (In DupFound (output (id_check all_rows)) <->
   ~ NoDup (map key_of (present_ids all_rows))) /\
  (In DupFound (output (id_check all_rows)) <->
   exists before r1 between r2 after id1 id2,
     all_rows = before ++ r1 :: between ++ r2 :: after /\
     id_of r1 = Some id1 /\ id_of r2 = Some id2 /\
     truthy id1 = true /\ truthy id2 = true /\ same_key id1 id2 = true).
Proof.
  intros Hd Hh.
  assert (H1 : In DupFound (output (id_check all_rows)) <->
               ~ NoDup (map key_of (present_ids all_rows))).
  { rewrite (dup_found_iff _ Hd Hh), distinct_count_iff. tauto. }
  split; [exact H1 |]. rewrite H1. clear H1. split.
  - intros Hn. clear Hd. induction all_rows as [ | r rows IH].
    + destruct Hn. constructor.
    + change (r :: rows) with ([r] ++ rows) in Hn, Hh.
      rewrite present_ids_app in Hn, Hh. rewrite forallb_app in Hh.
      apply andb_prop in Hh as [Hhr Hhs].
      destruct (Nat.eq_dec (List.length (present_ids rows))
                  (distinct_count (present_ids rows))) as [Hnd | Hnd];
        rewrite distinct_count_iff in Hnd.
      * (* the first row repeats an identifier of the others *)
        rewrite present_ids_single in Hn, Hhr.
        destruct (id_of r) as [id1 | ] eqn:Hi; [ | now destruct Hn].
        destruct (truthy id1) eqn:Ht; [ | now destruct Hn].
        cbn [app map] in Hn. cbn [forallb] in Hhr. apply andb_prop in Hhr as [Hh1 _].
        assert (Hin : In (key_of id1) (map key_of (present_ids rows))).
        { destruct (in_dec okey_eq_dec (key_of id1) (map key_of (present_ids rows)))
            as [Hin | Hin]; [exact Hin |]. destruct Hn. now constructor. }
        apply in_map_iff in Hin as (id2 & Hk & Hin2).
        unfold present_ids in Hin2. apply in_flat_map in Hin2 as (r2 & Hr2 & Hin2).
        destruct (id_of r2) as [id2' | ] eqn:Hi2; [ | destruct Hin2].
        destruct (truthy id2') eqn:Ht2; [ | destruct Hin2].
        destruct Hin2 as [<- | []].
        apply in_split in Hr2 as (between & after & ->).
        exists [], r, between, r2, after, id1, id2'. repeat split; try assumption.
        apply same_key_iff. unfold hashable in Hh1.
        destruct (key_of id1) as [k | ]; [ | discriminate]. exists k. now split.
      * destruct (IH Hhs Hnd)
          as (before & r1 & between & r2 & after & id1 & id2 & -> & Hrest).
        now exists (r :: before), r1, between, r2, after, id1, id2.
  - intros (before & r1 & between & r2 & after & id1 & id2 & -> & Hi1 & Hi2 & Ht1 & Ht2 & Hk).
    replace (before ++ r1 :: between ++ r2 :: after)
      with (before ++ [r1] ++ between ++ [r2] ++ after) by reflexivity.
    rewrite !present_ids_app, (present_ids_row _ _ Hi1 Ht1), (present_ids_row _ _ Hi2 Ht2).
    rewrite !map_app. cbn [map app]. intros Hn.
    apply NoDup_remove_2 in Hn. apply Hn. clear Hn.
    apply same_key_iff in Hk as (k & -> & Hk2).
    rewrite in_app_iff. right. cbn [In]. rewrite in_app_iff. right. left.
    now rewrite Hk2.
Qed.

Lemma X12_duplicate_meaning_witness :
  In DupFound (output (id_check [PDict [("id", PInt 1)]; PDict [("id", PFloat 1)]])).
Proof.
  apply (proj2 (X12_duplicate_meaning [PDict [("id", PInt 1)]; PDict [("id", PFloat 1)]]
                  eq_refl eq_refl)).
  exists [], (PDict [("id", PInt 1)]), [], (PDict [("id", PFloat 1)]), [],
    (PInt 1), (PFloat 1).
  repeat split.
Defined.

Lemma present_ids_length (all_rows : list pyval) :
  (List.length (present_ids all_rows) <= List.length all_rows)%nat.
Proof.
  induction all_rows as [ | r rows IH]; [simpl; lia |].
  change (r :: rows) with ([r] ++ rows).
  rewrite present_ids_app, present_ids_single, !length_app.
  destruct (id_of r) as [id | ]; [destruct (truthy id) | ]; simpl; lia.
Qed.

Lemma In_firstn {A} (n : nat) (x : A) (l : list A) : In x (firstn n l) -> In x l.
Proof.
  intros H. rewrite <- (firstn_skipn n l). apply in_or_app. now left.
Qed.

Lemma sum_of_groups (l : list nat) :
  Forall (fun n => (1 <= n)%nat) l ->
  (List.length l + List.length (filter (fun n => (1 <? n)%nat) l) <= list_sum l)%nat.
Proof.
  induction 1 as [ | n l Hn _ IH]; simpl; [lia |].
  destruct (1 <? n)%nat eqn:E; simpl.
  - apply Nat.ltb_lt in E. lia.
  - lia.
Qed.

Lemma In_le_list_sum (n : nat) (l : list nat) : In n l -> (n <= list_sum l)%nat.
Proof.
  induction l as [ | m l IH]; simpl; [tauto |]. intros [<- | H]; [lia |].
  specialize (IH H). lia.
Qed.

(** The groups of the identifiers: one for each distinct identifier, none
    empty, and together as large as the list. *)
Lemma id_groups (all_ids : list pyval) :
  forallb hashable all_ids = true ->
  let counts := map (fun k => count k all_ids) (first_seen [] all_ids) in
  Forall (fun n => (1 <= n)%nat) counts /\
  list_sum counts = List.length all_ids /\
  List.length counts = distinct_count all_ids /\
  map snd (duplicate_groups all_ids) = filter (fun n => (1 <? n)%nat) counts.
Proof.
  intros Hh counts. subst counts. split; [ | split; [ | split]].
  - apply Forall_forall. intros n Hn. apply in_map_iff in Hn as (k & <- & Hk).
    apply (count_first_seen_pos all_ids [] k Hk).
    pose proof (first_seen_hashable all_ids [] Hh) as Hf.
    rewrite Forall_forall in Hf. now apply Hf.
  - pose proof (Counter_sum all_ids) as Hs.
    rewrite (Counter_spec _ Hh), map_map in Hs. exact Hs.
  - now rewrite length_map, first_seen_length.
  - unfold duplicate_groups. rewrite <- filter_map_snd, map_map. reflexivity.
Qed.

(** X13.  The numbers of the duplicate report, whenever it is printed: the
    number of duplicate identifiers is at least 1 and at most the number of
    unique ones, and the two together are at most the number of items;
    every identifier listed appears at least twice and at most as often as
    there are items; and the line "and m more" comes with m at least 1, m
    being the number of duplicate identifiers beyond the five listed. *)
Theorem X13_duplicate_numbers (all_rows : list pyval) (n u d : nat) :
  forallb is_dict all_rows = true ->
  forallb hashable (present_ids all_rows) = true ->
  In (DupTotalItems n) (output (id_check all_rows)) ->
  In (DupUniqueIds u) (output (id_check all_rows)) ->
  In (DupNumber d) (output (id_check all_rows)) ->
  n = List.length all_rows /\
  (1 <= d)%nat /\ (d <= u)%nat /\ (u + d <= n)%nat /\
  (forall id c, In (DupId id c) (output (id_check all_rows)) ->
     (2 <= c)%nat /\ (c <= n)%nat /\ c = count id (present_ids all_rows)) /\
  (forall m, In (DupMore m) (output (id_check all_rows)) ->
     (1 <= m)%nat /\ (m + 5)%nat = d).
Proof.
  intros Hd Hh. rewrite (id_check_output _ Hd Hh).
  pose proof (duplicates_iff _ Hh) as Hiff.
  pose proof (present_ids_length all_rows) as Hlen.
  destruct (id_groups _ Hh) as (Hpos & Hsum & Hcount & Hdup).
  set (ids := present_ids all_rows) in *.
  set (counts := map (fun k => count k ids) (first_seen [] ids)) in *.
  pose proof (sum_of_groups counts Hpos) as Hsg.
  pose proof (filter_length_le (fun n => (1 <? n)%nat) counts) as Hfl.
  rewrite <- Hdup, length_map, Hcount in Hfl.
  rewrite <- Hdup, length_map, Hsum, Hcount in Hsg.
  destruct (Nat.eqb_spec (List.length ids) (distinct_count ids)) as [E | E].
  { intros [H | [H | [H | []]]]; discriminate. }
  set (dups := duplicate_groups ids) in *.
  assert (Hne : dups <> []) by (intros H; apply E, Hiff, H).
  assert (Hnot : forall (e : out) (P : Prop),
             (forall g, e <> DupId (fst g) (snd g)) -> (forall m, e <> DupMore m) ->
             In e (map (fun g => DupId (fst g) (snd g)) (firstn 5 dups)
                   ++ (if (5 <? List.length dups)%nat
                       then [DupMore (List.length dups - 5)] else [])) -> P).
  { intros e P H1 H2 H. apply in_app_or in H as [H | H].
    - apply in_map_iff in H as (g & H & _). now destruct (H1 g).
    - destruct (5 <? _)%nat; [ | destruct H].
      destruct H as [H | []]. symmetry in H. now apply H2 in H. }
  intros [H | [H | [Hn | [H | [H | H]]]]]; try discriminate;
    try (exfalso; refine (Hnot _ False _ _ H); intros; discriminate).
  injection Hn as <-.
  intros [H | [H | [H | [Hu | [H | H]]]]]; try discriminate;
    try (exfalso; refine (Hnot _ False _ _ H); intros; discriminate).
  injection Hu as <-.
  intros [H | [H | [H | [H | [Hdn | H]]]]]; try discriminate;
    try (exfalso; refine (Hnot _ False _ _ H); intros; discriminate).
  injection Hdn as <-.
  assert (H1 : (1 <= List.length dups)%nat) by (destruct dups; [now destruct Hne | simpl; lia]).
  split; [reflexivity |]. split; [exact H1 |]. split; [lia |]. split; [lia |]. split.
  - intros id c [H | [H | [H | [H | [H | H]]]]]; try discriminate.
    apply in_app_or in H as [H | H].
    + apply in_map_iff in H as (g & [= <- <-] & Hg).
      apply (In_firstn 5) in Hg. unfold dups, duplicate_groups in Hg.
      apply filter_In in Hg as [Hg H2]. apply Nat.ltb_lt in H2.
      apply in_map_iff in Hg as (k & <- & Hk). cbn [fst snd] in *.
      split; [lia |]. split; [ | reflexivity].
      assert (Hin : In (count k ids) counts) by (apply in_map_iff; eauto).
      apply In_le_list_sum in Hin. lia.
    + destruct (5 <? _)%nat; [destruct H as [H | []]; discriminate | destruct H].
  - intros m [H | [H | [H | [H | [H | H]]]]]; try discriminate.
    apply in_app_or in H as [H | H].
    + apply in_map_iff in H as (g & H & _). discriminate.
    + destruct (5 <? List.length dups)%nat eqn:E5; [ | destruct H].
      apply Nat.ltb_lt in E5. destruct H as [[= <-] | []]. lia.
Qed.

Lemma X13_duplicate_numbers_witness :
  13%nat = List.length rows_six_twice /\ (1 <= 6)%nat /\ (6 <= 7)%nat /\ (7 + 6 <= 13)%nat.
Proof.
  destruct (X13_duplicate_numbers rows_six_twice 13 7 6 eq_refl eq_refl)
    as (H1 & H2 & H3 & H4 & _).
  - right. right. now left.
  - right. right. right. now left.
  - right. right. right. right. now left.
  - repeat split; assumption.
Defined.

(* ================================================================== *)
(** ** The order of the files *)

Lemma string_compare_app (p s t : string) :
  String.compare (p ++ s) (p ++ t) = String.compare s t.
Proof.
  induction p as [ | c p IH]; simpl; [reflexivity |].
  unfold Ascii.compare. now rewrite N.compare_refl.
Qed.

Lemma string_ltb_prefix (p t : string) :
  t <> EmptyString -> String.ltb p (p ++ t) = true.
Proof.
  intros Ht. unfold String.ltb.
  assert (E : String.compare p (p ++ t) = Lt).
  { induction p as [ | c p IH]; simpl.
    - destruct t; [now destruct Ht | reflexivity].
    - unfold Ascii.compare. now rewrite N.compare_refl. }
  now rewrite E.
Qed.

Lemma string_ltb_first_difference (p s t : string) (a b : ascii) :
  (N_of_ascii a < N_of_ascii b)%N ->
  String.ltb (p ++ String a s) (p ++ String b t) = true.
Proof.
  intros Hab. unfold String.ltb. rewrite string_compare_app. simpl.
  unfold Ascii.compare. now rewrite (proj2 (N.compare_lt_iff _ _) Hab).
Qed.

Lemma sorted_before {A} (le : A -> A -> Prop) (l : list A) (x y : A) :
  StronglySorted le l -> In x l -> In y l -> le x x -> ~ le y x ->
  exists l1 l2 l3, l = l1 ++ x :: l2 ++ y :: l3.
Proof.
  intros Hs Hx Hy Hr Hn. apply in_split in Hx as (l1 & rest & ->).
  assert (Hrest : In y rest).
  { apply in_app_or in Hy as [Hy | [<- | Hy]]; [ | now destruct Hn | exact Hy].
    exfalso. apply Hn. clear Hn. induction l1 as [ | z l1 IH]; [destruct Hy |].
    simpl in Hs. apply StronglySorted_inv in Hs as [Hs Hz].
    destruct Hy as [-> | Hy]; [ | now apply IH].
    rewrite Forall_forall in Hz. apply Hz, in_or_app. right. now left. }
  apply in_split in Hrest as (l2 & l3 & ->). now exists l1, l2, l3.
Qed.

(** X14.  The files are processed in the order of their names as strings,
    character by character: a file whose name is the beginning of
    another's comes before it, and so does a file whose name has the
    smaller character at the first place where two names differ.  The
    order is not numeric: ["topic-message(10)"] is processed before
    ["topic-message(2)"]. *)
Theorem X14_processing_order (file_pattern : string) (items : list file) (f g : file) :
  In f (all_files_of file_pattern items) ->
  In g (all_files_of file_pattern items) ->
  (exists t, t <> EmptyString /\ name g = (name f ++ t)%string) \/
  (exists p a b s t,
     name f = (p ++ String a s)%string /\ name g = (p ++ String b t)%string /\
     (N_of_ascii a < N_of_ascii b)%N) ->
  String.ltb (name f) (name g) = true /\
  exists l1 l2 l3, all_files_of file_pattern items = l1 ++ f :: l2 ++ g :: l3.
Proof.
  intros Hf Hg Hname.
  assert (Hlt : String.ltb (name f) (name g) = true).
  { destruct Hname as [(t & Ht & ->) | (p & a & b & s & t & -> & -> & Hab)].
    - now apply string_ltb_prefix.
    - now apply string_ltb_first_difference. }
  split; [exact Hlt |].
  apply (sorted_before (fun f g => String.leb (name f) (name g) = true)).
  - apply all_files_of_sorted.
  - exact Hf.
  - exact Hg.
  - now rewrite string_leb_ltb, string_ltb_irrefl.
  - rewrite string_leb_ltb, Hlt. discriminate.
Qed.

Lemma X14_processing_order_witness :
  exists l1 l2 l3,
    all_files_of "topic"
      [regular "topic-message(2)" (inl OtherError);
       regular "topic-message(10)" (inl OtherError)]
    = l1 ++ regular "topic-message(10)" (inl OtherError)
         :: l2 ++ regular "topic-message(2)" (inl OtherError) :: l3.
Proof.
  refine (proj2 (X14_processing_order "topic"
                   [regular "topic-message(2)" (inl OtherError);
                    regular "topic-message(10)" (inl OtherError)]
                   (regular "topic-message(10)" (inl OtherError))
                   (regular "topic-message(2)" (inl OtherError)) _ _ _)).
  - vm_compute. now left.
  - vm_compute. right. now left.
  - right. exists "topic-message(", "1"%char, "2"%char, "0)"%string, ")"%string.
    repeat split.
Defined.

(* ================================================================== *)
(** ** The pattern *)












(* ================================================================== *)
(** ** Rows of one cost unit *)

Lemma first_seen_all_seen (seen l : list pyval) :
  (forall x, In x l -> existsb (same_key x) seen = true) -> first_seen seen l = [].
Proof.
  induction l as [ | x l IH]; intros H; simpl; [reflexivity |].
  rewrite (H x (or_introl eq_refl)). apply IH. intros y Hy. apply H. now right.
Qed.

Lemma filter_all {A} (p : A -> bool) (l : list A) :
  (forall x, In x l -> p x = true) -> filter p l = l.
Proof.
  induction l as [ | x l IH]; intros H; simpl; [reflexivity |].
  rewrite (H x (or_introl eq_refl)). f_equal. apply IH. intros y Hy. apply H. now right.
Qed.

(** X16.  When all rows have the same cost unit, the breakdown has that one
    unit, with all the rows, and the cost printed for it is the grand total
    printed before, bit for bit: both are accumulated over the same rows in
    the same order. *)
Theorem X16_single_cost_unit (w : world) (row : pyval) (rest : list pyval) :
  forallb is_dict (row :: rest) = true ->
  forallb hashable (present_ids (row :: rest)) = true ->
  forallb cost_ok (row :: rest) = true ->
  locale_available w = true ->
  hashable (unit_of row) = true ->
  too_large (unit_of row) = false ->
  (forall r, In r rest -> same_key (unit_of r) (unit_of row) = true) ->
  report w (row :: rest)
  = (output (id_check (row :: rest)) ++ locale_warnings w
       ++ [GrandTotalHeader; TotalCost (float_sum (map cost_of (row :: rest)));
           BreakdownHeader;
           CostUnit (unit_of row) (S (List.length rest));
           UnitTotalCost (float_sum (map cost_of (row :: rest)))],
     inr tt).
Proof.
  intros Hd Hh Hc Hl Hu Ht Hsame.
  assert (Hall : forall r, In r (row :: rest) -> same_key (unit_of row) (unit_of r) = true).
  { intros r [<- | Hr]; [now apply same_key_refl |].
    rewrite same_key_sym. now apply Hsame. }
  assert (Huo : forallb unit_ok (row :: rest) = true).
  { apply forallb_forall. intros r Hr. unfold unit_ok. specialize (Hall r Hr).
    apply same_key_iff in Hall as (k & _ & Hk). unfold hashable. now rewrite Hk. }
  assert (Hcu : cost_units (row :: rest) = [unit_of row]).
  { unfold cost_units. cbn [map first_seen existsb app]. f_equal.
    apply first_seen_all_seen. intros u Hin.
    apply in_map_iff in Hin as (r & <- & Hr). cbn [existsb].
    now rewrite (Hsame r Hr). }
  assert (Hs : sorted_units w (cost_units (row :: rest)) = inr [unit_of row]).
  { rewrite Hcu. unfold sorted_units. cbn [sort_keys].
    destruct (sort_key w (unit_of row)) as [e | k] eqn:E; [ | reflexivity].
    apply sort_key_error in E as [_ E]. congruence. }
  rewrite (report_rows w _ Hd Hh Hc Hl), (breakdown_report_rows _ _ Hd Hc Huo).
  fold (cost_units (row :: rest)). rewrite Hs. cbn [output outcome fst snd flat_map].
  unfold unit_lines, rows_of_unit. rewrite (filter_all _ _ Hall). reflexivity.
Qed.

Lemma X16_single_cost_unit_witness :
  report (example_world [] [])
    [row (PStr "a") (PFloat 0.1) (PInt 7); row (PStr "b") (PFloat 0.2) (PFloat 7)]
  = ([IdCheckHeader; AllUnique; UniqueTotalItems 2; WarnLocaleUS;
      GrandTotalHeader; TotalCost (0 + 0.1 + 0.2)%float; BreakdownHeader;
      CostUnit (PInt 7) 2; UnitTotalCost (0 + 0.1 + 0.2)%float],
     inr tt).
Proof.
  refine (X16_single_cost_unit (example_world [] [])
            (row (PStr "a") (PFloat 0.1) (PInt 7))
            [row (PStr "b") (PFloat 0.2) (PFloat 7)]
            eq_refl eq_refl eq_refl eq_refl eq_refl eq_refl _).
  intros r [<- | []]. reflexivity.
Defined.

(* ================================================================== *)
(** ** Rows after rows *)


(* ================================================================== *)
(** ** A file without rows *)

Lemma extracted_rows_app (w : world) (l1 l2 : list file) :
  extracted_rows w (l1 ++ l2)
  = (rows <~ extracted_rows w l1 ;; more <~ extracted_rows w l2 ;; inr (rows ++ more)).
Proof.
  induction l1 as [ | f l1 IH]; cbn [app extracted_rows].
  - now destruct (extracted_rows w l2).
  - destruct (py_iter (rows_of w f)) as [e | rows]; [reflexivity |]. rewrite IH.
    destruct (extracted_rows w l1) as [e | rows1]; [reflexivity |].
    destruct (extracted_rows w l2) as [e | rows2]; [reflexivity |].
    now rewrite app_assoc.
Qed.

(** X18.  A file that yields no rows, be it unreadable, no JSON, or with an
    empty [data], does not stop the run and leaves the rows of the run as
    they are without it: the report is made over the rows of the other
    files.  For such a file the loop prints its "Processing" line, what
    [process_file] has to say, and "Found 0 cost items". *)
Theorem X18_file_without_rows (w : world) (f : file) (before after : list file)
    (rows : pyval) (all_rows : list pyval) :
  outcome (process_file w f) = inr rows ->
  py_iter rows = inr [] ->
  outcome (collect_rows w all_rows (before ++ f :: after))
  = outcome (collect_rows w all_rows (before ++ after)) /\
  file_lines w f
  = Processing (name f) :: output (process_file w f) ++ [FoundItems 0] /\
  ((exists e, content f = inl e) \/ (exists v, content f = inr v /\ is_dict v = false) ->
   rows = PList []).
Proof.
  intros Hp Hi. rewrite process_file_outcome in Hp. injection Hp as <-.
  split; [ | split].
  - rewrite !collect_rows_outcome, !extracted_rows_app. cbn [extracted_rows].
    rewrite Hi. destruct (extracted_rows w before) as [e | r1]; [reflexivity |].
    now destruct (extracted_rows w after).
  - unfold file_lines. now rewrite Hi, process_file_output.
  - unfold rows_of. intros [[e ->] | (v & -> & Hv)]; [reflexivity |].
    now destruct v.
Qed.

Lemma X18_file_without_rows_witness :
  outcome (collect_rows two_exports [] ([enveloped] ++ broken :: []))
  = outcome (collect_rows two_exports [] ([enveloped] ++ [])).
Proof.
  exact (proj1 (X18_file_without_rows two_exports broken [enveloped] [] (PList []) []
                  eq_refl eq_refl)).
Defined.
